(** * Verification of the CodeQL tools download pipeline

    A shallow embedding of [src/tools-download.ts]: the orchestration of the
    streaming and the download-first acquisition of the CodeQL bundle, the
    duration reports, the request construction and the URL sanitizer.

    Asynchronous code is embedded in a state-and-exception monad over a
    [World] that carries the observable trace (log lines and calls to the
    collaborators), the monotonic clock and the set of files on disk.  The
    collaborators that live outside the file ([https.get], [tar.extract],
    [toolcache.downloadTool], ...) are fields of an environment record. *)

From Stdlib Require Import ZArith QArith Qround String List Lia Lqa.
From stdpp Require Import base option list gmap sets strings pretty.

Local Open Scope string_scope.
Local Open Scope Z_scope.

(** ** Values *)

(** A thrown JavaScript error: its [name] and its [message]. *)
Record JsError := mkJsError { name : string; message : string }.

(** [new Error(msg)] *)
Definition new_Error (msg : string) : JsError :=
  {| name := "Error"; message := msg |}.

(** Modelled from the spec: [getErrorMessage] of [util.ts], which is not under
    [src/]; it yields the human-readable reason string of a failure. *)
Definition getErrorMessage (e : JsError) : string := message e.

(** [tar.CompressionMethod] *)
Inductive CompressionMethod := gzip | zstd.

Definition CompressionMethod_eqb (a b : CompressionMethod) : bool :=
  match a, b with
  | gzip, gzip | zstd, zstd => true
  | _, _ => false
  end.

(** Modelled from the spec: [tar.TarVersion], the tool version hint handed to
    the extraction collaborator; its declaration is in [tar.ts], not under
    [src/].  The pipeline only passes it on. *)
Record TarVersion := mkTarVersion { tarVersionHint : string }.

(** The value of one entry of [OutgoingHttpHeaders]. *)
Inductive HeaderValue :=
| HNumber (n : Z)
| HString (s : string)
| HStrings (l : list string)
| HUndefined.

(** [OutgoingHttpHeaders]: a JavaScript object used as a map, keys compared
    as JavaScript compares property names (exactly, case included). *)
Abbreviation OutgoingHttpHeaders := (gmap string HeaderValue).

(** A parsed [URL] object, identified with its serialisation. *)
Record URL := mkURL { href : string }.

Definition URL_toString (u : URL) : string := href u.

(** [IncomingMessage]: the response handed to the callback of [https.get]. *)
Record IncomingMessage := mkIncomingMessage {
  statusCode : Z;
  payload : string
}.

(** ** Completions and the observable trace *)

(** How an awaited promise settles. *)
Inductive Completion (A : Type) : Type :=
| Fulfilled (a : A)
| Rejected (e : JsError).
Arguments Fulfilled {A} a.
Arguments Rejected {A} e.

(** What became of an awaited promise once the program has come to rest: it
    settled, or it never will, because an ['error'] event was emitted that
    nothing listens for.  Node throws such an error outside every promise, as
    an uncaught exception, and no [catch] or [finally] of the program sees
    it. *)
Inductive Outcome (A : Type) : Type :=
| Settled (c : Completion A)
| Uncaught (e : JsError).
Arguments Settled {A} c.
Arguments Uncaught {A} e.

(** A completion is read as the outcome of a promise that settled. *)
Coercion Settled : Completion >-> Outcome.

(** What [https.get] does with a request: the response callback fires, or the
    call throws at once (an unsupported protocol, say), or the request emits
    ['error'] (the connection cannot be made or breaks). *)
Inductive GetResult :=
| Responds (response : IncomingMessage)
| Throws (e : JsError)
| EmitsError (e : JsError).

(** Everything the pipeline does to the outside, in program order: the log
    lines, the calls to the collaborators with their arguments, and, as
    [EnterStreaming], each entry into [downloadAndExtractZstdWithStreaming]
    with the arguments it receives. *)
Inductive Event :=
| LoggerInfo (msg : string)
| LoggerWarning (msg : string)
| CoreWarning (msg : string)
| EnterStreaming (codeqlURL : string) (authorization : option string)
    (headers : OutgoingHttpHeaders) (tarVersion : option TarVersion)
| NewURL (url : string)
| HttpsGet (downloadUrl : string) (headers : OutgoingHttpHeaders)
    (highWaterMark : Z)
| ExtractTarZst (response : IncomingMessage) (tarVersion : option TarVersion)
| DownloadTool (url dest : string) (authorization : option string)
    (headers : OutgoingHttpHeaders)
| TarExtract (archive : string) (method : CompressionMethod)
    (tarVersion : option TarVersion)
| Del (glob : string).

Record World := mkWorld {
  trace : list Event;
  now : Q;
  files : gset string
}.

(** The collaborators of the pipeline.  [elapsed] is the time, in
    milliseconds, by which the clock read by [performance.now()] has advanced
    when an event is over. *)
Record Env := mkEnv {
  process_platform : string;
  knownSuffixes : list (string * CompressionMethod);
  new_URL : string -> Completion URL;
  getProxyUrl : URL -> option URL;
  https_get : string -> OutgoingHttpHeaders -> Z -> GetResult;
  tar_extractTarZst : IncomingMessage -> option TarVersion -> Completion string;
  uuidV4 : string;
  path_join : string -> string -> string;
  toolcache_downloadTool :
    string -> string -> option string -> OutgoingHttpHeaders -> Completion string;
  tar_extract :
    string -> CompressionMethod -> option TarVersion -> Completion string;
  del : string -> Completion unit;
  formatDuration : Z -> string;
  elapsed : Event -> Q
}.

(** ** The monad of asynchronous computations *)

Definition Async (A : Type) : Type := World -> Outcome A * World.

Definition ret {A} (a : A) : Async A := fun w => (Settled (Fulfilled a), w).

Definition throw {A} (e : JsError) : Async A := fun w => (Settled (Rejected e), w).

Definition bind {A B} (m : Async A) (k : A -> Async B) : Async B :=
  fun w =>
    match m w with
    | (Settled (Fulfilled a), w') => k a w'
    | (Settled (Rejected e), w') => (Settled (Rejected e), w')
    | (Uncaught e, w') => (Uncaught e, w')
    end.

(** [try { body } catch (e) { handler }]; an uncaught error is none of its
    business. *)
Definition try_catch {A} (body : Async A) (handler : JsError -> Async A) : Async A :=
  fun w =>
    match body w with
    | (Settled (Fulfilled a), w') => (Settled (Fulfilled a), w')
    | (Settled (Rejected e), w') => handler e w'
    | (Uncaught e, w') => (Uncaught e, w')
    end.

(** [try { body } finally { finalizer }]: the finalizer runs when the body has
    settled, either way; when it throws, its error replaces the completion of
    the body.  A body that never settles never reaches it. *)
Definition try_finally {A} (body : Async A) (finalizer : Async unit) : Async A :=
  fun w =>
    match body w with
    | (Settled c, w') =>
        match finalizer w' with
        | (Settled (Fulfilled _), w'') => (Settled c, w'')
        | (Settled (Rejected e), w'') => (Settled (Rejected e), w'')
        | (Uncaught e, w'') => (Uncaught e, w'')
        end
    | (Uncaught e, w') => (Uncaught e, w')
    end.

Declare Scope async_scope.
Delimit Scope async_scope with async.
Notation "x <- m ;; k" := (bind m (fun x => k))
  (at level 100, m at next level, right associativity) : async_scope.
Notation "m ;; k" := (bind m (fun _ => k))
  (at level 100, right associativity) : async_scope.

(** ** Pure helpers *)

(** [Math.round]: the integer nearest to [x], ties towards plus infinity. *)
Definition Math_round (x : Q) : Z := Qfloor (x + (1 # 2)).

(** [String.prototype.startsWith] *)
Definition startsWith (s searchString : string) : bool :=
  String.prefix searchString s.

(** [String.prototype.endsWith] *)
Definition endsWith (s searchString : string) : bool :=
  String.prefix (String.rev searchString) (String.rev s).

(** [Array.prototype.some] *)
Definition some {A} (f : A -> bool) (l : list A) : bool := existsb f l.

(** The truthiness of a [string | undefined]. *)
Definition truthy (s : option string) : bool :=
  match s with
  | Some v => negb (String.eqb v "")
  | None => false
  end.

(** [a || b] on a [string | undefined] and a string. *)
Definition or_else (a : option string) (b : string) : string :=
  match a with
  | Some v => if truthy a then v else b
  | None => b
  end.

(** [Object.assign(target, ...sources)]: each source in turn overwrites the
    keys it defines. *)
Definition Object_assign (target : OutgoingHttpHeaders)
    (sources : list OutgoingHttpHeaders) : OutgoingHttpHeaders :=
  fold_left (fun acc src => src ∪ acc) sources target.

Definition STREAMING_HIGH_WATERMARK_BYTES : Z := 4 * 1024 * 1024.

(** *** Duration reports *)

Record ToolsDownloadDurations := mkDurations {
  d_combinedDurationMs : Z;
  d_downloadDurationMs : option Z;
  d_extractionDurationMs : option Z;
  d_streamExtraction : bool
}.

Definition makeDownloadFirstToolsDownloadDurations
    (downloadDurationMs extractionDurationMs : Z) : ToolsDownloadDurations :=
  {| d_combinedDurationMs := downloadDurationMs + extractionDurationMs;
     d_downloadDurationMs := Some downloadDurationMs;
     d_extractionDurationMs := Some extractionDurationMs;
     d_streamExtraction := false |}.

Definition makeStreamedToolsDownloadDurations
    (combinedDurationMs : Z) : ToolsDownloadDurations :=
  {| d_combinedDurationMs := combinedDurationMs;
     d_downloadDurationMs := None;
     d_extractionDurationMs := None;
     d_streamExtraction := true |}.

(** [ToolsDownloadStatusReport]: the three fields of its own and the fields
    of the durations, in one flat object. *)
Record ToolsDownloadStatusReport := mkStatusReport {
  compressionMethod : CompressionMethod;
  toolsUrl : string;
  zstdFailureReason : option string;
  combinedDurationMs : Z;
  downloadDurationMs : option Z;
  extractionDurationMs : option Z;
  streamExtraction : bool
}.

(** The object literal [{ compressionMethod, toolsUrl, ...durations }]; it has
    no [zstdFailureReason] key. *)
Definition statusReportOf (method : CompressionMethod) (url : string)
    (d : ToolsDownloadDurations) : ToolsDownloadStatusReport :=
  {| compressionMethod := method;
     toolsUrl := url;
     zstdFailureReason := None;
     combinedDurationMs := d_combinedDurationMs d;
     downloadDurationMs := d_downloadDurationMs d;
     extractionDurationMs := d_extractionDurationMs d;
     streamExtraction := d_streamExtraction d |}.

(** *** The URL sanitizer *)

Definition trustedRepos : list string :=
  ["github/codeql-action"; "dsp-testing/codeql-cli-nightlies"].

Definition releasePrefix (repo : string) : string :=
  "https://github.com/" +:+ repo +:+ "/releases/download/".

Definition sanitizeUrlForStatusReport (url : string) : string :=
  if some (fun repo => startsWith url (releasePrefix repo)) trustedRepos
  then url
  else "sanitized-value".

(** *** The compression classifier *)

Definition UnrecognizedFormat (url : string) : JsError :=
  {| name := "UnrecognizedFormat";
     message := "Could not infer the compression method of " +:+ url |}.

(** Modelled from the spec: [tar.inferCompressionMethod] of [tar.ts], which is
    not under [src/].  It maps a URL to the method of the first known suffix
    the URL ends with, and fails fast with [UnrecognizedFormat] for a URL
    whose suffix maps to no known method. *)
Definition inferCompressionMethod (table : list (string * CompressionMethod))
    (url : string) : Completion CompressionMethod :=
  match List.find (fun entry => endsWith url (fst entry)) table with
  | Some entry => Fulfilled (snd entry)
  | None => Rejected (UnrecognizedFormat url)
  end.

(** *** Log messages *)

Definition downloadingMessage (codeqlURL : string) : string :=
  "Downloading CodeQL tools from " +:+ codeqlURL +:+ " . This may take a while.".

Definition streamingMessage : string :=
  "Streaming the extraction of the CodeQL bundle.".

Definition fallbackMessage : string :=
  "Failed to download and extract CodeQL bundle using streaming. Falling back to downloading the bundle before extracting.".

Definition statusCodeMessage (codeqlURL : string) (status : Z) : string :=
  "Failed to download CodeQL bundle from " +:+ codeqlURL
  +:+ ". HTTP status code: " +:+ pretty status +:+ ".".

Definition finishedMessage (what path duration : string) : string :=
  "Finished " +:+ what +:+ " CodeQL bundle to " +:+ path
  +:+ " (" +:+ duration +:+ ").".

Definition cleanUpFailedMessage (name reason : string) : string :=
  "Failed to clean up " +:+ name +:+ ": " +:+ reason +:+ ".".

(** ** The pipeline *)

Section Pipeline.

Variable env : Env.

Local Open Scope async_scope.

(** An effect on the outside: it is appended to the trace and the clock
    advances by the time it took. *)
Definition emit (ev : Event) : Async unit :=
  fun w =>
    (Settled (Fulfilled tt),
     {| trace := trace w ++ [ev];
        now := (now w + elapsed env ev)%Q;
        files := files w |}).

(** A call [ev] to a collaborator, which settles as [c]. *)
Definition invoke {A} (ev : Event) (c : Completion A) : Async A :=
  emit ev ;; (fun w => (Settled c, w)).

Definition logger_info (msg : string) : Async unit := emit (LoggerInfo msg).
Definition logger_warning (msg : string) : Async unit := emit (LoggerWarning msg).
Definition core_warning (msg : string) : Async unit := emit (CoreWarning msg).

(** [performance.now()] *)
Definition performance_now : Async Q :=
  fun w => (Settled (Fulfilled (now w)), w).

Definition create_file (path : string) : Async unit :=
  fun w =>
    (Settled (Fulfilled tt),
     {| trace := trace w; now := now w; files := {[path]} ∪ files w |}).

Definition remove_file (path : string) : Async unit :=
  fun w =>
    (Settled (Fulfilled tt),
     {| trace := trace w; now := now w; files := files w ∖ {[path]} |}).

(** Modelled from the spec: [cleanUpGlob] of [util.ts], which is not under
    [src/].  It deletes the file; a failure of the deletion is logged as a
    warning and is not passed on to the caller. *)
Definition cleanUpGlob (glob name : string) : Async unit :=
  try_catch
    (invoke (Del glob) (del env glob) ;; remove_file glob)
    (fun e =>
       logger_warning (cleanUpFailedMessage name (getErrorMessage e))).

(** [toolcache.downloadTool]: on success the archive is on disk. *)
Definition downloadTool (url dest : string) (authorization : option string)
    (headers : OutgoingHttpHeaders) : Async string :=
  archive <- invoke (DownloadTool url dest authorization headers)
               (toolcache_downloadTool env url dest authorization headers) ;;
  create_file archive ;;
  ret archive.

Definition adjustUrlByProxy (url : string) : Async (option string) :=
  parsed <- invoke (NewURL url) (new_URL env url) ;;
  ret (match getProxyUrl env parsed with
       | Some proxyUrl => Some (URL_toString proxyUrl)
       | None => None
       end).

(** The headers of the streaming request. *)
Definition requestHeaders (authorization : option string)
    (headers : OutgoingHttpHeaders) : OutgoingHttpHeaders :=
  Object_assign
    {[ "User-Agent" := HString "CodeQL Action" ]}
    [ match authorization with
      | Some a => if truthy authorization
                  then {[ "authorization" := HString a ]} else ∅
      | None => ∅
      end;
      headers ].

(** [new Promise((resolve) => https.get(url, options, (r) => resolve(r)))]:
    the promise is fulfilled with the response when the callback fires and
    rejected when [https.get] throws inside the executor; the executor takes
    no [reject] and puts no ['error'] listener on the request, so an error
    that the request emits is not caught and the promise stays pending. *)
Definition https_get_promise (downloadUrl : string)
    (headers : OutgoingHttpHeaders) : Async IncomingMessage :=
  emit (HttpsGet downloadUrl headers STREAMING_HIGH_WATERMARK_BYTES) ;;
  (fun w =>
     (match https_get env downloadUrl headers STREAMING_HIGH_WATERMARK_BYTES with
      | Responds response => Settled (Fulfilled response)
      | Throws e => Settled (Rejected e)
      | EmitsError e => Uncaught e
      end, w)).

(** [tar.extractTarZst]: on success the bundle is on disk, at the path that
    is returned. *)
Definition extractTarZst (response : IncomingMessage)
    (tarVersion : option TarVersion) : Async string :=
  extracted <- invoke (ExtractTarZst response tarVersion)
                 (tar_extractTarZst env response tarVersion) ;;
  create_file extracted ;;
  ret extracted.

(** [tar.extract]: on success the bundle is on disk, at the path that is
    returned. *)
Definition extract (archive : string) (method : CompressionMethod)
    (tarVersion : option TarVersion) : Async string :=
  extracted <- invoke (TarExtract archive method tarVersion)
                 (tar_extract env archive method tarVersion) ;;
  create_file extracted ;;
  ret extracted.

(** The non-null assertion [tarVersion!] of the caller is erased at run time:
    the function receives whatever the caller holds, [undefined] included. *)
Definition downloadAndExtractZstdWithStreaming (codeqlURL : string)
    (authorization : option string) (headers : OutgoingHttpHeaders)
    (tarVersion : option TarVersion) : Async string :=
  emit (EnterStreaming codeqlURL authorization headers tarVersion) ;;
  proxied <- adjustUrlByProxy codeqlURL ;;
  let downloadUrl := or_else proxied codeqlURL in
  let headers := requestHeaders authorization headers in
  response <- https_get_promise downloadUrl headers ;;
  if negb (statusCode response =? 200)
  then throw (new_Error (statusCodeMessage codeqlURL (statusCode response)))
  else extractTarZst response tarVersion.

(** The object [{ extractedBundlePath, statusReport }] that
    [downloadAndExtract] resolves to. *)
Record AcquisitionResult := mkAcquisitionResult {
  extractedBundlePath : string;
  statusReport : ToolsDownloadStatusReport
}.

(** The guard of the streaming branch. *)
Definition streamingEligible (method : CompressionMethod) : bool :=
  CompressionMethod_eqb method zstd && String.eqb (process_platform env) "linux".

(** The first [try] block of [downloadAndExtract]: [Some r] when the block
    returns [r], [None] when control leaves it at its end. *)
Definition streamingAttempt (codeqlURL : string) (authorization : option string)
    (headers : OutgoingHttpHeaders) (tarVersion : option TarVersion)
    (method : CompressionMethod) : Async (option AcquisitionResult) :=
  try_catch
    (if streamingEligible method then
       logger_info streamingMessage ;;
       toolsInstallStart <- performance_now ;;
       extracted <- downloadAndExtractZstdWithStreaming
                      codeqlURL authorization headers tarVersion ;;
       finished <- performance_now ;;
       let combinedDurationMs := Math_round (finished - toolsInstallStart) in
       logger_info
         (finishedMessage "downloading and extracting" extracted
            (formatDuration env combinedDurationMs)) ;;
       ret (Some
              {| extractedBundlePath := extracted;
                 statusReport :=
                   statusReportOf method (sanitizeUrlForStatusReport codeqlURL)
                     (makeStreamedToolsDownloadDurations combinedDurationMs) |})
     else ret None)
    (fun e =>
       core_warning fallbackMessage ;;
       core_warning (getErrorMessage e) ;;
       ret None).

(** The rest of [downloadAndExtract], from [path.join] on: the bundle is
    downloaded to a file, extracted from it, and the file is cleaned up. *)
Definition downloadFirst (codeqlURL : string) (authorization : option string)
    (headers : OutgoingHttpHeaders) (tarVersion : option TarVersion)
    (tempDir : string) (method : CompressionMethod) : Async AcquisitionResult :=
  let dest := path_join env tempDir (uuidV4 env) in
  toolsDownloadStart <- performance_now ;;
  archivedBundlePath <- downloadTool codeqlURL dest authorization headers ;;
  downloaded <- performance_now ;;
  let downloadDurationMs := Math_round (downloaded - toolsDownloadStart) in
  logger_info
    (finishedMessage "downloading" archivedBundlePath
       (formatDuration env downloadDurationMs)) ;;
  extraction <-
    try_finally
      (logger_info "Extracting CodeQL bundle." ;;
       extractionStart <- performance_now ;;
       extracted <- extract archivedBundlePath method tarVersion ;;
       extractedAt <- performance_now ;;
       let extractionDurationMs := Math_round (extractedAt - extractionStart) in
       logger_info
         (finishedMessage "extracting" extracted
            (formatDuration env extractionDurationMs)) ;;
       ret (extracted, extractionDurationMs))
      (cleanUpGlob archivedBundlePath "CodeQL bundle archive") ;;
  ret {| extractedBundlePath := fst extraction;
         statusReport :=
           statusReportOf method (sanitizeUrlForStatusReport codeqlURL)
             (makeDownloadFirstToolsDownloadDurations
                downloadDurationMs (snd extraction)) |}.

Definition downloadAndExtract (codeqlURL : string) (authorization : option string)
    (headers : OutgoingHttpHeaders) (tarVersion : option TarVersion)
    (tempDir : string) : Async AcquisitionResult :=
  logger_info (downloadingMessage codeqlURL) ;;
  method <- (fun w =>
               (Settled (inferCompressionMethod (knownSuffixes env) codeqlURL), w)) ;;
  streamed <- streamingAttempt codeqlURL authorization headers tarVersion method ;;
  match streamed with
  | Some result => ret result
  | None => downloadFirst codeqlURL authorization headers tarVersion tempDir method
  end.

End Pipeline.

(** ** Observations on a run *)

(** The events a computation has added to the trace of [w] when it leaves
    the world [w']. *)
Definition emitted (w w' : World) : list Event :=
  drop (length (trace w)) (trace w').

Definition count (p : Event -> bool) (evs : list Event) : nat :=
  length (List.filter p evs).

Definition isEnterStreaming (ev : Event) : bool :=
  match ev with EnterStreaming _ _ _ _ => true | _ => false end.

Definition isHttpsGet (ev : Event) : bool :=
  match ev with HttpsGet _ _ _ => true | _ => false end.

Definition isDownloadTool (ev : Event) : bool :=
  match ev with DownloadTool _ _ _ _ => true | _ => false end.

Definition isDel (ev : Event) : bool :=
  match ev with Del _ => true | _ => false end.

(** Every effect takes a non-negative time: the clock behind
    [performance.now()] is monotonic. *)
Definition monotonicClock (env : Env) : Prop :=
  forall ev, (0 <= elapsed env ev)%Q.

(** ** Derived notions *)

Local Open Scope list_scope.

(** What a sub-computation shows of itself does not depend on the world it
    starts in: its completion and the events it adds are functions of the
    environment and of its arguments alone. *)
Definition stable {A} (m : Async A) : Prop :=
  forall w1 w2,
    fst (m w1) = fst (m w2) /\
    emitted w1 (snd (m w1)) = emitted w2 (snd (m w2)).

(** A computation only ever adds events at the end of the trace. *)
Definition extends_trace {A} (m : Async A) : Prop :=
  forall w, trace (snd (m w)) = trace w ++ emitted w (snd (m w)).

(** The world in which the classification takes place. *)
Definition announced (env : Env) (codeqlURL : string) (w : World) : World :=
  snd (logger_info env (downloadingMessage codeqlURL) w).

(** The world in which the streaming function is entered. *)
Definition streamingStart (env : Env) (codeqlURL : string) (w : World) : World :=
  snd (logger_info env streamingMessage (announced env codeqlURL w)).

(** The connection target of the streaming request: the proxy endpoint when
    one is resolved, the URL of the bundle otherwise. *)
Definition connectionTarget (env : Env) (codeqlURL : string) (parsed : URL) : string :=
  or_else
    match getProxyUrl env parsed with
    | Some proxyUrl => Some (URL_toString proxyUrl)
    | None => None
    end codeqlURL.

(** The trusted origin and path prefixes. *)
Definition trustedPrefixes : list string := List.map releasePrefix trustedRepos.

(** [url] begins with one of the trusted prefixes. *)
Definition beginsWithTrustedPrefix (url : string) : Prop :=
  exists p rest, List.In p trustedPrefixes /\ url = p +:+ rest.

(** The same runner on another platform. *)
Definition onPlatform (platform : string) (env : Env) : Env :=
  {| process_platform := platform;
     knownSuffixes := knownSuffixes env;
     new_URL := new_URL env;
     getProxyUrl := getProxyUrl env;
     https_get := https_get env;
     tar_extractTarZst := tar_extractTarZst env;
     uuidV4 := uuidV4 env;
     path_join := path_join env;
     toolcache_downloadTool := toolcache_downloadTool env;
     tar_extract := tar_extract env;
     del := del env;
     formatDuration := formatDuration env;
     elapsed := elapsed env |}.

(** ** Concrete runners *)

Definition sampleElapsed (ev : Event) : Q :=
  match ev with
  | HttpsGet _ _ _ => 120 # 1
  | ExtractTarZst _ _ => 3000 # 1
  | DownloadTool _ _ _ _ => 15004 # 10
  | TarExtract _ _ _ => 20004 # 10
  | _ => 0
  end.

(** A runner on [platform] behind [proxy], where the server answers an
    [https:] request with [status] and [https.get] refuses any other
    protocol, the streaming extractor settles as [streamed], the extraction
    from the downloaded file as [extractedFromFile] and the deletion of the
    archive as [deleted]. *)
Definition sampleEnv (platform : string) (proxy : option URL) (status : Z)
    (streamed extractedFromFile : Completion string)
    (deleted : Completion unit) : Env :=
  {| process_platform := platform;
     knownSuffixes := [(".tar.gz", gzip); (".tar.zst", zstd)];
     new_URL := fun url => Fulfilled (mkURL url);
     getProxyUrl := fun _ => proxy;
     https_get := fun url _ _ =>
       if startsWith url "https:"
       then Responds (mkIncomingMessage status "")
       else Throws (new_Error "protocol mismatch");
     tar_extractTarZst := fun _ _ => streamed;
     uuidV4 := "1b9d6bcd";
     path_join := fun dir base => dir +:+ "/" +:+ base;
     toolcache_downloadTool := fun _ dest _ _ => Fulfilled dest;
     tar_extract := fun _ _ _ => extractedFromFile;
     del := fun _ => deleted;
     formatDuration := fun ms => pretty ms +:+ "ms";
     elapsed := sampleElapsed |}.

Definition emptyWorld : World := {| trace := []; now := 0; files := ∅ |}.

Definition zstUrl : string :=
  "https://github.com/github/codeql-action/releases/download/v1/bundle.tar.zst".

Definition gzUrl : string :=
  "https://example.com/mirror/bundle.tar.gz".

(** A URL with a suffix that is not known. *)
Definition zipUrl : string := "https://example.com/mirror/bundle.zip".

(** A runner on linux whose server answers 200 and whose streaming
    extraction succeeds. *)
Definition streamingEnv : Env :=
  sampleEnv "linux" None 200 (Fulfilled "/opt/streamed")
    (Fulfilled "/opt/extracted") (Fulfilled tt).

(** A runner on linux whose server answers the streaming request with 404. *)
Definition notFoundEnv : Env :=
  sampleEnv "linux" None 404 (Fulfilled "/opt/streamed")
    (Fulfilled "/opt/extracted") (Fulfilled tt).

(** A runner on macOS, where streaming is not eligible; the download takes
    1500.4 ms and the extraction 2000.4 ms. *)
Definition slowEnv : Env :=
  sampleEnv "darwin" None 200 (Fulfilled "/opt/streamed")
    (Fulfilled "/opt/extracted") (Fulfilled tt).

(** A runner where the extraction of the downloaded archive fails and the
    archive is deleted, and one where the deletion fails as well. *)
Definition brokenArchiveEnv (deleted : Completion unit) : Env :=
  sampleEnv "darwin" None 200 (Fulfilled "/opt/streamed")
    (Rejected (new_Error "tar exited with code 2")) deleted.

(** A runner on macOS whose download fails. *)
Definition offlineEnv : Env :=
  {| process_platform := "darwin";
     knownSuffixes := [(".tar.gz", gzip); (".tar.zst", zstd)];
     new_URL := fun url => Fulfilled (mkURL url);
     getProxyUrl := fun _ => None;
     https_get := fun _ _ _ => Responds (mkIncomingMessage 200 "");
     tar_extractTarZst := fun _ _ => Fulfilled "/opt/streamed";
     uuidV4 := "1b9d6bcd";
     path_join := fun dir base => dir +:+ "/" +:+ base;
     toolcache_downloadTool := fun _ _ _ _ =>
       Rejected (new_Error "Unexpected HTTP response: 503");
     tar_extract := fun _ _ _ => Fulfilled "/opt/extracted";
     del := fun _ => Fulfilled tt;
     formatDuration := fun ms => pretty ms +:+ "ms";
     elapsed := sampleElapsed |}.

(** A runner on linux whose URL parser refuses every URL. *)
Definition strictParserEnv : Env :=
  {| process_platform := "linux";
     knownSuffixes := [(".tar.gz", gzip); (".tar.zst", zstd)];
     new_URL := fun url => Rejected (mkJsError "TypeError" "Invalid URL");
     getProxyUrl := fun _ => None;
     https_get := fun _ _ _ => Responds (mkIncomingMessage 200 "");
     tar_extractTarZst := fun _ _ => Fulfilled "/opt/streamed";
     uuidV4 := "1b9d6bcd";
     path_join := fun dir base => dir +:+ "/" +:+ base;
     toolcache_downloadTool := fun _ dest _ _ => Fulfilled dest;
     tar_extract := fun _ _ _ => Fulfilled "/opt/extracted";
     del := fun _ => Fulfilled tt;
     formatDuration := fun ms => pretty ms +:+ "ms";
     elapsed := sampleElapsed |}.

(** A runner on linux whose requests fail on the way: the connection is
    refused, and the request emits ['error']. *)
Definition unreachableEnv : Env :=
  {| process_platform := "linux";
     knownSuffixes := [(".tar.gz", gzip); (".tar.zst", zstd)];
     new_URL := fun url => Fulfilled (mkURL url);
     getProxyUrl := fun _ => None;
     https_get := fun _ _ _ =>
       EmitsError (new_Error "connect ECONNREFUSED 140.82.112.3:443");
     tar_extractTarZst := fun _ _ => Fulfilled "/opt/streamed";
     uuidV4 := "1b9d6bcd";
     path_join := fun dir base => dir +:+ "/" +:+ base;
     toolcache_downloadTool := fun _ dest _ _ => Fulfilled dest;
     tar_extract := fun _ _ _ => Fulfilled "/opt/extracted";
     del := fun _ => Fulfilled tt;
     formatDuration := fun ms => pretty ms +:+ "ms";
     elapsed := sampleElapsed |}.

(** A runner on linux behind a proxy that is reached over https. *)
Definition proxiedEnv : Env :=
  sampleEnv "linux" (Some (mkURL "https://proxy.internal:3128/")) 200
    (Fulfilled "/opt/streamed") (Fulfilled "/opt/extracted") (Fulfilled tt).

(** Another bundle. *)
Definition nightlyUrl : string :=
  "https://github.com/dsp-testing/codeql-cli-nightlies/releases/download/n1/bundle.tar.zst".

(** Further observations on the trace. *)
Definition isExtractTarZst (ev : Event) : bool :=
  match ev with ExtractTarZst _ _ => true | _ => false end.

Definition isTarExtract (ev : Event) : bool :=
  match ev with TarExtract _ _ _ => true | _ => false end.

Definition isCoreWarning (ev : Event) : bool :=
  match ev with CoreWarning _ => true | _ => false end.

(** ** The post hook of the SARIF upload action

    [src/upload-sarif-action-post.ts].  The helper that uploads, the name of
    the environment variable ([EnvVar.INIT_ACTION_HAS_RUN]) and [wrapError]
    are declared in files that are not at hand: they are fields of the
    environment. *)

Module UploadSarifPost.

Inductive Event :=
| UploadArtifacts
| SetFailed (msg : string).

Record Env := mkEnv {
  INIT_ACTION_HAS_RUN : string;
  process_env : gmap string string;
  uploadArtifacts : Completion unit;
  wrapError : JsError -> JsError
}.

Definition failedMessage (reason : string) : string :=
  "upload-sarif post-action step failed: " +:+ reason.

(** [runWrapper]: the completion of its promise and the calls it made. *)
Definition runWrapper (env : Env) : Completion unit * list Event :=
  let attempt : Completion unit * list Event :=
    if negb (bool_decide (process_env env !! INIT_ACTION_HAS_RUN env = Some "true"))
    then (uploadArtifacts env, [UploadArtifacts])
    else (Fulfilled tt, [])
  in
  match attempt with
  | (Fulfilled _, evs) => (Fulfilled tt, evs)
  | (Rejected error, evs) =>
      (Fulfilled tt,
       evs ++ [SetFailed (failedMessage (message (wrapError env error)))])
  end.

Definition isSetFailed (ev : Event) : bool :=
  match ev with SetFailed _ => true | _ => false end.

(** A job in which the init action has not run and the upload fails. *)
Definition thirdPartyEnv (upload : Completion unit) : Env :=
  {| INIT_ACTION_HAS_RUN := "CODEQL_ACTION_INIT_HAS_RUN";
     process_env := {[ "RUNNER_OS" := "Linux" ]};
     uploadArtifacts := upload;
     wrapError := fun e => e |}.

(** A job in which the init action has run. *)
Definition firstPartyEnv (upload : Completion unit) : Env :=
  {| INIT_ACTION_HAS_RUN := "CODEQL_ACTION_INIT_HAS_RUN";
     process_env := {[ "CODEQL_ACTION_INIT_HAS_RUN" := "true" ]};
     uploadArtifacts := upload;
     wrapError := fun e => e |}.

End UploadSarifPost.

(** ** Feature flags

    The feature flag file of the repository: [Features], [GitHubFeatureFlags]
    and [createFeatureFlags].  The objects keep their state (the cached API
    response) in a [State] that is threaded through the calls, together with
    the log and the number of API requests made so far. *)

Module FeatureFlags.

Inductive Feature :=
| BypassToolcacheEnabled
| MlPoweredQueriesEnabled
| TrapCachingEnabled
| GolangExtractionReconciliationEnabled
| CliConfigFileEnabled.

(** The string value of an enum member. *)
Definition Feature_value (flag : Feature) : string :=
  match flag with
  | BypassToolcacheEnabled => "bypass_toolcache_enabled"
  | MlPoweredQueriesEnabled => "ml_powered_queries_enabled"
  | TrapCachingEnabled => "trap_caching_enabled"
  | GolangExtractionReconciliationEnabled =>
      "golang_extraction_reconciliation_enabled"
  | CliConfigFileEnabled => "cli_config_file_enabled"
  end.

Definition Feature_eqb (a b : Feature) : bool :=
  String.eqb (Feature_value a) (Feature_value b).

Record FeatureConfig := mkFeatureConfig {
  envVar : string;
  minimumVersion : option string
}.

Definition featureConfig (flag : Feature) : FeatureConfig :=
  match flag with
  | BypassToolcacheEnabled =>
      {| envVar := "CODEQL_BYPASS_TOOLCACHE"; minimumVersion := None |}
  | MlPoweredQueriesEnabled =>
      {| envVar := "CODEQL_ML_POWERED_QUERIES"; minimumVersion := Some "2.7.5" |}
  | TrapCachingEnabled =>
      {| envVar := "CODEQL_TRAP_CACHING"; minimumVersion := None |}
  | GolangExtractionReconciliationEnabled =>
      {| envVar := "CODEQL_GOLANG_EXTRACTION_RECONCILIATION";
         minimumVersion := None |}
  | CliConfigFileEnabled =>
      {| envVar := "CODEQL_PASS_CONFIG_TO_CLI"; minimumVersion := Some "2.10.1" |}
  end.

(** [FeatureFlagsApiResponse]: a partial record from features to booleans. *)
Definition FeatureFlagsApiResponse : Type := Feature -> option bool.

(** The object [{}]. *)
Definition emptyResponse : FeatureFlagsApiResponse := fun _ => None.

(** [util.GitHubVariant], of which the code only knows [DOTCOM]; the other
    variants are told apart by a number. *)
Inductive GitHubVariant :=
| DOTCOM
| OtherVariant (n : nat).

Definition GitHubVariant_eqb (a b : GitHubVariant) : bool :=
  match a, b with
  | DOTCOM, DOTCOM => true
  | OtherVariant n, OtherVariant k => Nat.eqb n k
  | _, _ => false
  end.

(** The [CodeQL] object; only the version check looks at it. *)
Record CodeQL := mkCodeQL { cliVersion : string }.

(** What a failed API request throws: its [status] property, if it has one,
    and its rendering in a template literal. *)
Record ApiError := mkApiError {
  status : option Z;
  rendering : string
}.

Inductive Event :=
| LoggerDebug (msg : string)
| LoggerWarning (msg : string)
| ApiRequest (route owner repo : string).

(** The surroundings of the feature flags: the process environment, the
    helpers of [util], and the API, whose [n]-th request (from 0) is answered
    by [client_request n]. *)
Record Env := mkEnv {
  process_env : gmap string string;
  toLocaleLowerCase : string -> string;
  isInTestMode : bool;
  codeQlVersionAbove : CodeQL -> string -> Completion bool;
  isHTTPError : ApiError -> bool;
  gitHubVersion_type : GitHubVariant;
  repositoryNwo_owner : string;
  repositoryNwo_repo : string;
  client_request : nat -> ApiError + FeatureFlagsApiResponse
}.

Record State := mkState {
  cachedApiResponse : option FeatureFlagsApiResponse;
  log : list Event;
  requests : nat
}.

Definition M (A : Type) : Type := State -> Completion A * State.

Definition mret {A} (a : A) : M A := fun st => (Fulfilled a, st).

Definition mthrow {A} (e : JsError) : M A := fun st => (Rejected e, st).

Definition mbind {A B} (m : M A) (k : A -> M B) : M B :=
  fun st =>
    match m st with
    | (Fulfilled a, st') => k a st'
    | (Rejected e, st') => (Rejected e, st')
    end.

Declare Scope flags_scope.
Delimit Scope flags_scope with flags.
Notation "x <- m ;; k" := (mbind m (fun x => k))
  (at level 100, m at next level, right associativity) : flags_scope.
Notation "m ;; k" := (mbind m (fun _ => k))
  (at level 100, right associativity) : flags_scope.

Definition write (ev : Event) : M unit :=
  fun st =>
    (Fulfilled tt,
     {| cachedApiResponse := cachedApiResponse st;
        log := log st ++ [ev];
        requests := requests st |}).

Definition internalErrorMessage (flag : Feature) : string :=
  "Internal error: A minimum version is specified for feature flag "
  +:+ Feature_value flag +:+ ", but no instance of CodeQL was provided.".

Definition noResponseMessage (flag : Feature) : string :=
  "No feature flags API response for " +:+ Feature_value flag
  +:+ ", considering it disabled.".

Definition undefinedFlagMessage (flag : Feature) : string :=
  "Feature flag '" +:+ Feature_value flag
  +:+ "' undefined in API response, considering it disabled.".

Definition notDotcomMessage : string :=
  "Not running against github.com. Disabling all feature flags.".

Definition forbiddenMessage (e : ApiError) : string :=
  "This run of the CodeQL Action does not have permission to access Code Scanning API endpoints. "
  +:+ "As a result, it will not be opted into any experimental features. "
  +:+ "This could be because the Action is running on a pull request from a fork. If not, "
  +:+ "please ensure the Action has the 'security-events: write' permission. Details: "
  +:+ rendering e.

Definition loadErrorMessage (e : ApiError) : string :=
  "Encountered an error while trying to load feature flags: " +:+ rendering e.

Definition featuresRoute : string :=
  "GET /repos/:owner/:repo/code-scanning/codeql-action/features".

Section Flags.

Variable env : Env.

Local Open Scope flags_scope.

(** [client.request(...)]: the request is counted and answered. *)
Definition request : M (ApiError + FeatureFlagsApiResponse) :=
  fun st =>
    (Fulfilled (client_request env (requests st)),
     {| cachedApiResponse := cachedApiResponse st;
        log := log st
               ++ [ApiRequest featuresRoute (repositoryNwo_owner env)
                     (repositoryNwo_repo env)];
        requests := S (requests st) |}).

(** [GitHubFeatureFlags.loadApiResponse]; [None] is the [undefined] that the
    function returns when it leaves the [catch] block at its end. *)
Definition loadApiResponse : M (option FeatureFlagsApiResponse) :=
  if negb (GitHubVariant_eqb (gitHubVersion_type env) DOTCOM)
  then write (LoggerDebug notDotcomMessage) ;; mret (Some emptyResponse)
  else
    answer <- request ;;
    match answer with
    | inr data => mret (Some data)
    | inl e =>
        if isHTTPError env e && bool_decide (status e = Some 403)
        then write (LoggerWarning (forbiddenMessage e)) ;; mret None
        else mthrow (new_Error (loadErrorMessage e))
    end.

(** [GitHubFeatureFlags.getApiResponse] *)
Definition getApiResponse : M (option FeatureFlagsApiResponse) :=
  apiResponse <-
    (fun st =>
       match cachedApiResponse st with
       | Some cached => mret (Some cached) st
       | None => loadApiResponse st
       end) ;;
  (fun st =>
     (Fulfilled apiResponse,
      {| cachedApiResponse := apiResponse;
         log := log st;
         requests := requests st |})).

(** [GitHubFeatureFlags.getValue] *)
Definition GitHubFeatureFlags_getValue (flag : Feature) : M bool :=
  response <- getApiResponse ;;
  match response with
  | None => write (LoggerDebug (noResponseMessage flag)) ;; mret false
  | Some data =>
      match data flag with
      | None => write (LoggerDebug (undefinedFlagMessage flag)) ;; mret false
      | Some flagValue => mret (flagValue || false)
      end
  end.

(** The lower-cased value of the environment variable of a flag. *)
Definition envVarValue (flag : Feature) : string :=
  toLocaleLowerCase env
    (or_else (process_env env !! envVar (featureConfig flag)) "").

(** [Features.getValue] *)
Definition getValue (flag : Feature) (codeql : option CodeQL) : M bool :=
  if negb (bool_decide (is_Some codeql))
     && truthy (minimumVersion (featureConfig flag))
  then mthrow (new_Error (internalErrorMessage flag))
  else if Feature_eqb flag BypassToolcacheEnabled && isInTestMode env
  then mret false
  else
    let envVar := envVarValue flag in
    if String.eqb envVar "false" then mret false
    else
      versionOk <-
        match codeql, minimumVersion (featureConfig flag) with
        | Some cli, Some minimum =>
            if truthy (Some minimum)
            then (fun st => (codeQlVersionAbove env cli minimum, st))
            else mret true
        | _, _ => mret true
        end ;;
      if negb versionOk then mret false
      else if String.eqb envVar "true" then mret true
      else GitHubFeatureFlags_getValue flag.

End Flags.

(** The call passes the check of the [CodeQL] argument. *)
Definition wellCalled (flag : Feature) (codeql : option CodeQL) : Prop :=
  is_Some codeql \/ minimumVersion (featureConfig flag) = None.

(** The version of the CLI allows the flag. *)
Definition versionAllows (env : Env) (flag : Feature) (codeql : option CodeQL) : Prop :=
  minimumVersion (featureConfig flag) = None
  \/ (exists cli minimum,
        codeql = Some cli /\
        minimumVersion (featureConfig flag) = Some minimum /\
        codeQlVersionAbove env cli minimum = Fulfilled true).

Definition isApiRequest (ev : Event) : bool :=
  match ev with ApiRequest _ _ _ => true | _ => false end.

(** [createFeatureFlags(enabledFlags).getValue] *)
Definition createFeatureFlags (enabledFlags : list Feature) (flag : Feature) : bool :=
  existsb (Feature_eqb flag) enabledFlags.

(** ASCII lower-casing, for the concrete environments. *)
Definition lowerAscii (c : Ascii.ascii) : Ascii.ascii :=
  let n := Ascii.nat_of_ascii c in
  if (65 <=? n)%nat && (n <=? 90)%nat then Ascii.ascii_of_nat (n + 32) else c.

Fixpoint lowerCase (s : string) : string :=
  match s with
  | EmptyString => EmptyString
  | String c rest => String (lowerAscii c) (lowerCase rest)
  end.

(** A workflow on github.com whose environment is [vars] and whose API
    answers the [n]-th request with [answers n]. *)
Definition dotcomEnv (vars : gmap string string) (testMode : bool)
    (answers : nat -> ApiError + FeatureFlagsApiResponse) : Env :=
  {| process_env := vars;
     toLocaleLowerCase := lowerCase;
     isInTestMode := testMode;
     codeQlVersionAbove := fun cli minimum =>
       Fulfilled (String.eqb (cliVersion cli) "2.11.0");
     isHTTPError := fun e => bool_decide (is_Some (status e));
     gitHubVersion_type := DOTCOM;
     repositoryNwo_owner := "octo-org";
     repositoryNwo_repo := "octo-repo";
     client_request := answers |}.

(** The same workflow on a GitHub Enterprise Server. *)
Definition enterpriseEnv (vars : gmap string string)
    (answers : nat -> ApiError + FeatureFlagsApiResponse) : Env :=
  {| process_env := vars;
     toLocaleLowerCase := lowerCase;
     isInTestMode := false;
     codeQlVersionAbove := fun cli minimum =>
       Fulfilled (String.eqb (cliVersion cli) "2.11.0");
     isHTTPError := fun e => bool_decide (is_Some (status e));
     gitHubVersion_type := OtherVariant 1;
     repositoryNwo_owner := "octo-org";
     repositoryNwo_repo := "octo-repo";
     client_request := answers |}.

Definition freshState : State :=
  {| cachedApiResponse := None; log := []; requests := 0 |}.

(** An API that enables trap caching and nothing else. *)
Definition trapCachingOnly : FeatureFlagsApiResponse :=
  fun flag =>
    match flag with
    | TrapCachingEnabled => Some true
    | MlPoweredQueriesEnabled => Some false
    | _ => None
    end.

Definition forbidden : ApiError :=
  {| status := Some 403; rendering := "HttpError: Resource not accessible by integration" |}.

Definition serverError : ApiError :=
  {| status := Some 500; rendering := "HttpError: Internal Server Error" |}.

(** An API that answers the first request and fails afterwards. *)
Definition answersOnce (n : nat) : ApiError + FeatureFlagsApiResponse :=
  match n with
  | O => inr trapCachingOnly
  | S _ => inl serverError
  end.

End FeatureFlags.

(** ** Arithmetic of the duration measurements *)

Lemma Math_round_elapsed (t d : Q) : Math_round ((t + d) - t) = Math_round d.
Proof. unfold Math_round. apply Qfloor_comp. ring. Qed.

Lemma Math_round_nonneg (t t' : Q) : (t <= t')%Q -> 0 <= Math_round (t' - t).
Proof.
  intros Hle. unfold Math_round.
  change 0 with (Qfloor 0). apply Qfloor_resp_le. lra.
Qed.

(** ** Strings and headers *)

Lemma prefix_app (p s : string) :
  String.prefix p s = true <-> exists rest, s = p +:+ rest.
Proof.
  revert s. induction p as [|c p IH]; intros s.
  - split; [intros _; exists s; reflexivity | intros _; destruct s; reflexivity].
  - destruct s as [|c' s]; simpl.
    + split; [discriminate | intros [rest H]; discriminate].
    + destruct (Ascii.ascii_dec c c') as [->|Hne].
      * rewrite IH. split; intros [rest H]; exists rest; [by rewrite H | by inversion H].
      * split; [discriminate |].
        intros [rest H]. change (String c' s = String c (p +:+ rest)) in H.
        congruence.
Qed.

(** ** Running the pipeline symbolically *)

Ltac run_async :=
  repeat (progress
    (cbv beta iota zeta delta
       [bind ret throw try_catch try_finally emit invoke logger_info
        logger_warning core_warning performance_now create_file remove_file
        downloadTool cleanUpGlob adjustUrlByProxy https_get_promise
        extractTarZst extract];
     cbn [trace now files fst snd])).

(** Case analysis on how the next collaborator settles. *)
Ltac settle :=
  match goal with
  | |- context [match ?c with Fulfilled _ => _ | Rejected _ => _ end] =>
      let H := fresh "Hsettle" in destruct c eqn:H
  | |- context [match ?g with
                | Responds _ => _ | Throws _ => _ | EmitsError _ => _
                end] =>
      let H := fresh "Hget" in destruct g eqn:H
  | |- context [if negb ?b then _ else _] =>
      let H := fresh "Hstatus" in destruct b eqn:H; cbn [negb]
  end.

Ltac run_all := run_async; repeat (settle; run_async).

Lemma emitted_extend (w w' : World) (evs : list Event) :
  trace w' = trace w ++ evs -> emitted w w' = evs.
Proof. intros H. unfold emitted. rewrite H. apply drop_app_length. Qed.

Lemma count_app (p : Event -> bool) (xs ys : list Event) :
  count p (xs ++ ys) = (count p xs + count p ys)%nat.
Proof. unfold count. by rewrite List.filter_app, length_app. Qed.

Ltac emitted_now :=
  erewrite emitted_extend
    by (cbn [trace]; rewrite <- ?app_assoc; reflexivity).

Ltac trace_solver :=
  try (split; [reflexivity|]);
  try match goal with
    | |- emitted ?w _ = emitted _ _ =>
        erewrite (emitted_extend w), (emitted_extend _);
        [reflexivity | cbn [trace]; rewrite <- ?app_assoc; reflexivity ..]
    | |- _ = ?t ++ emitted ?w _ =>
        erewrite (emitted_extend w);
        [cbn [trace]; rewrite <- ?app_assoc; reflexivity
        | cbn [trace]; rewrite <- ?app_assoc; reflexivity]
    end.

Lemma streaming_stable env url auth hdrs tv :
  stable (downloadAndExtractZstdWithStreaming env url auth hdrs tv).
Proof.
  intros w1 w2. unfold downloadAndExtractZstdWithStreaming.
  run_all; trace_solver.
Qed.

Lemma streaming_extends env url auth hdrs tv :
  extends_trace (downloadAndExtractZstdWithStreaming env url auth hdrs tv).
Proof.
  intros w. unfold downloadAndExtractZstdWithStreaming.
  run_all; trace_solver.
Qed.

Lemma streaming_files env url auth hdrs tv w :
  files (snd (downloadAndExtractZstdWithStreaming env url auth hdrs tv w)) =
    match fst (downloadAndExtractZstdWithStreaming env url auth hdrs tv w) with
    | Settled (Fulfilled path) => {[path]} ∪ files w
    | _ => files w
    end.
Proof.
  unfold downloadAndExtractZstdWithStreaming. run_all; reflexivity.
Qed.

Lemma downloadFirst_stable env url auth hdrs tv tmp m :
  stable (downloadFirst env url auth hdrs tv tmp m).
Proof.
  intros w1 w2. unfold downloadFirst.
  run_all; rewrite ?Math_round_elapsed; trace_solver.
Qed.

Lemma downloadFirst_extends env url auth hdrs tv tmp m :
  extends_trace (downloadFirst env url auth hdrs tv tmp m).
Proof.
  intros w. unfold downloadFirst. run_all; trace_solver.
Qed.

(** ** The transitions of the orchestrator *)

Lemma downloadAndExtract_unrecognized env url auth hdrs tv tmp w e :
  inferCompressionMethod (knownSuffixes env) url = Rejected e ->
  downloadAndExtract env url auth hdrs tv tmp w = (Settled (Rejected e), announced env url w).
Proof.
  intros Hinfer. unfold downloadAndExtract, announced. run_async.
  rewrite Hinfer. reflexivity.
Qed.

Lemma downloadAndExtract_skip env url auth hdrs tv tmp w m :
  inferCompressionMethod (knownSuffixes env) url = Fulfilled m ->
  streamingEligible env m = false ->
  downloadAndExtract env url auth hdrs tv tmp w =
    downloadFirst env url auth hdrs tv tmp m (announced env url w).
Proof.
  intros Hinfer Hno. unfold downloadAndExtract, streamingAttempt, announced.
  run_async. rewrite Hinfer, Hno. reflexivity.
Qed.

Lemma downloadAndExtract_fallback env url auth hdrs tv tmp w m e :
  inferCompressionMethod (knownSuffixes env) url = Fulfilled m ->
  streamingEligible env m = true ->
  fst (downloadAndExtractZstdWithStreaming env url auth hdrs tv w) = Rejected e ->
  exists w',
    downloadAndExtract env url auth hdrs tv tmp w =
      downloadFirst env url auth hdrs tv tmp m w' /\
    trace w' =
      trace w
      ++ [LoggerInfo (downloadingMessage url); LoggerInfo streamingMessage]
      ++ emitted w (snd (downloadAndExtractZstdWithStreaming env url auth hdrs tv w))
      ++ [CoreWarning fallbackMessage; CoreWarning (getErrorMessage e)] /\
    files w' = files w.
Proof.
  intros Hinfer Hyes Hfail.
  pose proof (streaming_stable env url auth hdrs tv (streamingStart env url w) w)
    as [Hfst Hevs].
  pose proof (streaming_extends env url auth hdrs tv (streamingStart env url w))
    as Htrace.
  pose proof (streaming_files env url auth hdrs tv (streamingStart env url w))
    as Hfiles.
  rewrite Hfail in Hfst. rewrite Hevs in Htrace.
  unfold downloadAndExtract, streamingAttempt. run_async.
  rewrite Hinfer, Hyes. run_async.
  change {| trace := (trace w ++ [LoggerInfo (downloadingMessage url)])
                     ++ [LoggerInfo streamingMessage];
            now := (now w + elapsed env (LoggerInfo (downloadingMessage url))
                    + elapsed env (LoggerInfo streamingMessage))%Q;
            files := files w |}
    with (streamingStart env url w).
  destruct (downloadAndExtractZstdWithStreaming env url auth hdrs tv
              (streamingStart env url w)) as [c w1].
  cbn [fst snd] in *. subst c. run_async.
  eexists. split; [reflexivity|]. cbn [trace files].
  rewrite Htrace, Hfiles. unfold streamingStart, announced. run_async.
  split; [|reflexivity]. rewrite <- !app_assoc. reflexivity.
Qed.

Lemma downloadAndExtract_streamed env url auth hdrs tv tmp w m path :
  inferCompressionMethod (knownSuffixes env) url = Fulfilled m ->
  streamingEligible env m = true ->
  fst (downloadAndExtractZstdWithStreaming env url auth hdrs tv w) = Fulfilled path ->
  let start := streamingStart env url w in
  let finish := snd (downloadAndExtractZstdWithStreaming env url auth hdrs tv start) in
  let combined := Math_round (now finish - now start) in
  fst (downloadAndExtract env url auth hdrs tv tmp w) =
    Fulfilled
      (mkAcquisitionResult path
         (statusReportOf m (sanitizeUrlForStatusReport url)
            (makeStreamedToolsDownloadDurations combined))) /\
  emitted w (snd (downloadAndExtract env url auth hdrs tv tmp w)) =
    [LoggerInfo (downloadingMessage url); LoggerInfo streamingMessage]
    ++ emitted w (snd (downloadAndExtractZstdWithStreaming env url auth hdrs tv w))
    ++ [LoggerInfo
          (finishedMessage "downloading and extracting" path
             (formatDuration env combined))].
Proof.
  intros Hinfer Hyes Hok start finish combined.
  pose proof (streaming_stable env url auth hdrs tv start w) as [Hfst Hevs].
  pose proof (streaming_extends env url auth hdrs tv start) as Htrace.
  rewrite Hok in Hfst. rewrite Hevs in Htrace.
  unfold downloadAndExtract, streamingAttempt. run_async.
  rewrite Hinfer, Hyes. run_async.
  change {| trace := (trace w ++ [LoggerInfo (downloadingMessage url)])
                     ++ [LoggerInfo streamingMessage];
            now := (now w + elapsed env (LoggerInfo (downloadingMessage url))
                    + elapsed env (LoggerInfo streamingMessage))%Q;
            files := files w |}
    with start.
  subst combined finish.
  destruct (downloadAndExtractZstdWithStreaming env url auth hdrs tv start)
    as [c w1].
  cbn [fst snd] in *. subst c. run_async.
  split; [reflexivity|].
  apply emitted_extend. cbn [trace]. rewrite Htrace.
  unfold start, streamingStart, announced. run_async.
  rewrite <- !app_assoc. reflexivity.
Qed.

Lemma downloadAndExtract_uncaught env url auth hdrs tv tmp w m e :
  inferCompressionMethod (knownSuffixes env) url = Fulfilled m ->
  streamingEligible env m = true ->
  fst (downloadAndExtractZstdWithStreaming env url auth hdrs tv w) = Uncaught e ->
  fst (downloadAndExtract env url auth hdrs tv tmp w) = Uncaught e /\
  emitted w (snd (downloadAndExtract env url auth hdrs tv tmp w)) =
    [LoggerInfo (downloadingMessage url); LoggerInfo streamingMessage]
    ++ emitted w (snd (downloadAndExtractZstdWithStreaming env url auth hdrs tv w)) /\
  files (snd (downloadAndExtract env url auth hdrs tv tmp w)) = files w.
Proof.
  intros Hinfer Hyes Hlost.
  pose proof (streaming_stable env url auth hdrs tv (streamingStart env url w) w)
    as [Hfst Hevs].
  pose proof (streaming_extends env url auth hdrs tv (streamingStart env url w))
    as Htrace.
  pose proof (streaming_files env url auth hdrs tv (streamingStart env url w))
    as Hfiles.
  rewrite Hlost in Hfst. rewrite Hevs in Htrace. rewrite Hfst in Hfiles.
  unfold downloadAndExtract, streamingAttempt. run_async.
  rewrite Hinfer, Hyes. run_async.
  change {| trace := (trace w ++ [LoggerInfo (downloadingMessage url)])
                     ++ [LoggerInfo streamingMessage];
            now := (now w + elapsed env (LoggerInfo (downloadingMessage url))
                    + elapsed env (LoggerInfo streamingMessage))%Q;
            files := files w |}
    with (streamingStart env url w).
  destruct (downloadAndExtractZstdWithStreaming env url auth hdrs tv
              (streamingStart env url w)) as [c w1].
  cbn [fst snd] in *. subst c. run_async.
  split; [reflexivity|]. split; [|exact Hfiles].
  apply emitted_extend. rewrite Htrace.
  unfold streamingStart, announced. run_async.
  rewrite <- !app_assoc. reflexivity.
Qed.

(** The clock never runs backwards over the streaming function. *)
Lemma streaming_clock env url auth hdrs tv w :
  monotonicClock env ->
  (now w <= now (snd (downloadAndExtractZstdWithStreaming env url auth hdrs tv w)))%Q.
Proof.
  intros Hmono. unfold downloadAndExtractZstdWithStreaming.
  run_all;
    repeat match goal with
      | |- context [elapsed env ?ev] =>
          let H := fresh "Hev" in
          pose proof (Hmono ev) as H;
          generalize dependent (elapsed env ev); intros
      end; lra.
Qed.

(** ** The URL sanitizer *)

Lemma some_trusted_prefix (url : string) :
  some (fun repo => startsWith url (releasePrefix repo)) trustedRepos = true
  <-> beginsWithTrustedPrefix url.
Proof.
  unfold some, beginsWithTrustedPrefix, trustedPrefixes. rewrite existsb_exists.
  split.
  - intros (repo & Hin & Hpre). apply prefix_app in Hpre as [rest ->].
    exists (releasePrefix repo), rest. split; [by apply in_map | reflexivity].
  - intros (p & rest & Hin & ->). apply in_map_iff in Hin as (repo & <- & Hin).
    exists repo. split; [assumption|]. apply prefix_app. by exists rest.
Qed.

(** C5. The sanitizer returns its argument on the allow-listed branch exactly
    when the URL begins with one of the two hard-coded release prefixes, and
    the fixed placeholder ["sanitized-value"] for every other URL.  The only
    string that comes back unchanged without a trusted prefix is the
    placeholder itself, which is not a URL. *)
Theorem sanitizeUrlForStatusReport_allow_list (url : string) :
  (beginsWithTrustedPrefix url -> sanitizeUrlForStatusReport url = url) /\
  (~ beginsWithTrustedPrefix url ->
   sanitizeUrlForStatusReport url = "sanitized-value") /\
  (sanitizeUrlForStatusReport url = url -> url <> "sanitized-value" ->
   beginsWithTrustedPrefix url).
Proof.
  unfold sanitizeUrlForStatusReport.
  destruct (some _ trustedRepos) eqn:Hsome.
  - apply some_trusted_prefix in Hsome. repeat split; intros; tauto.
  - assert (~ beginsWithTrustedPrefix url) as Hnot.
    { rewrite <- some_trusted_prefix. congruence. }
    repeat split; intros; [tauto | congruence].
Qed.

Lemma zstUrl_trusted : beginsWithTrustedPrefix zstUrl.
Proof.
  exists (releasePrefix "github/codeql-action"), "v1/bundle.tar.zst".
  split; [left; reflexivity | reflexivity].
Qed.

Lemma gzUrl_untrusted : ~ beginsWithTrustedPrefix gzUrl.
Proof. rewrite <- some_trusted_prefix. vm_compute. discriminate. Qed.

Lemma sanitizeUrlForStatusReport_allow_list_witness :
  sanitizeUrlForStatusReport zstUrl = zstUrl /\
  sanitizeUrlForStatusReport gzUrl = "sanitized-value".
Proof.
  split.
  - apply (proj1 (sanitizeUrlForStatusReport_allow_list zstUrl)).
    exact zstUrl_trusted.
  - apply (proj1 (proj2 (sanitizeUrlForStatusReport_allow_list gzUrl))).
    exact gzUrl_untrusted.
Defined.

(** The two examples of the specification. *)
Example sanitizeUrlForStatusReport_examples :
  sanitizeUrlForStatusReport
    "https://github.com/github/codeql-action/releases/download/v1/bundle.tar.gz"
  = "https://github.com/github/codeql-action/releases/download/v1/bundle.tar.gz" /\
  sanitizeUrlForStatusReport "https://evil.example/bundle.tar.gz"
  = "sanitized-value".
Proof. split; reflexivity. Qed.

(** ** The streaming request *)

Lemma requestHeaders_lookup (authorization : option string)
    (headers : OutgoingHttpHeaders) (k : string) :
  requestHeaders authorization headers !! k =
    match headers !! k with
    | Some v => Some v
    | None =>
        match authorization with
        | Some a =>
            if decide (k = "authorization" /\ a <> "")
            then Some (HString a)
            else if decide (k = "User-Agent")
                 then Some (HString "CodeQL Action") else None
        | None =>
            if decide (k = "User-Agent")
            then Some (HString "CodeQL Action") else None
        end
    end.
Proof.
  unfold requestHeaders, Object_assign. simpl.
  rewrite lookup_union. destruct (headers !! k) as [v|] eqn:Hk.
  - by rewrite union_Some_l.
  - rewrite (left_id None _). rewrite lookup_union.
    destruct authorization as [a|]; simpl.
    + destruct (String.eqb_spec a "") as [->|Hne]; simpl.
      * rewrite lookup_empty, (left_id None _), lookup_singleton.
        destruct (decide (k = "authorization" /\ "" <> "")) as [[_ []]|_];
          [reflexivity|].
        destruct (decide ("User-Agent" = k)), (decide (k = "User-Agent"));
          congruence.
      * rewrite !lookup_singleton.
        destruct (decide ("authorization" = k)) as [<-|Hk'].
        -- destruct (decide ("authorization" = "authorization" /\ a <> ""))
             as [_|Hno]; [reflexivity | exfalso; apply Hno; by split].
        -- destruct (decide (k = "authorization" /\ a <> "")) as [[-> _]|_];
             [contradiction|]. rewrite (left_id None _).
           destruct (decide ("User-Agent" = k)), (decide (k = "User-Agent"));
             congruence.
    + rewrite lookup_empty, (left_id None _), lookup_singleton.
      destruct (decide ("User-Agent" = k)), (decide (k = "User-Agent"));
        congruence.
Qed.

(** The request of a streaming attempt: it carries the merge of the fixed
    [User-Agent], the authorization header (when an authorization is given)
    and the caller's headers, the caller's winning on a key they share, and
    its URL is the one of the proxy when one is resolved and the one of the
    bundle when none is. *)
Lemma streaming_request_headers_and_target env url auth hdrs tv w parsed :
  new_URL env url = Fulfilled parsed ->
  exists target rest,
    emitted w (snd (downloadAndExtractZstdWithStreaming env url auth hdrs tv w)) =
      EnterStreaming url auth hdrs tv :: NewURL url
      :: HttpsGet target (requestHeaders auth hdrs) STREAMING_HIGH_WATERMARK_BYTES
      :: rest /\
    count isHttpsGet rest = 0%nat /\
    (getProxyUrl env parsed = None -> target = url) /\
    (forall proxyUrl, getProxyUrl env parsed = Some proxyUrl ->
       href proxyUrl <> "" -> target = href proxyUrl) /\
    (forall k v, hdrs !! k = Some v -> requestHeaders auth hdrs !! k = Some v) /\
    (forall k, hdrs !! k = None ->
       requestHeaders auth hdrs !! k =
         match auth with
         | Some a =>
             if decide (k = "authorization" /\ a <> "")
             then Some (HString a)
             else if decide (k = "User-Agent")
                  then Some (HString "CodeQL Action") else None
         | None =>
             if decide (k = "User-Agent")
             then Some (HString "CodeQL Action") else None
         end).
Proof.
  intros Hparse. exists (connectionTarget env url parsed).
  assert (exists rest,
    emitted w (snd (downloadAndExtractZstdWithStreaming env url auth hdrs tv w)) =
      EnterStreaming url auth hdrs tv :: NewURL url
      :: HttpsGet (connectionTarget env url parsed) (requestHeaders auth hdrs)
           STREAMING_HIGH_WATERMARK_BYTES
      :: rest /\ count isHttpsGet rest = 0%nat) as (rest & Hevs & Hrest).
  { unfold downloadAndExtractZstdWithStreaming, connectionTarget.
    run_async. rewrite Hparse.
    run_all; eexists;
      (split;
       [apply emitted_extend; cbn [trace]; rewrite <- !app_assoc; reflexivity
       |reflexivity]). }
  exists rest. repeat split; try assumption.
  - intros Hnone. unfold connectionTarget. rewrite Hnone. reflexivity.
  - intros proxyUrl Hsome Hne. unfold connectionTarget. rewrite Hsome.
    unfold or_else, truthy, URL_toString.
    destruct (String.eqb_spec (href proxyUrl) ""); [contradiction | reflexivity].
  - intros k v Hk. rewrite requestHeaders_lookup, Hk. reflexivity.
  - intros k Hk. rewrite requestHeaders_lookup, Hk. reflexivity.
Qed.

(** C8. With a proxy the code departs from the specification.  When a proxy
    is resolved, the URL handed to [https.get] is the proxy's own URL and
    nothing else: this is the one request of the attempt, and the bundle's
    URL is no part of it, so that the bundle is not what is requested.  (The
    headers are the merged ones, as specified.) *)
Theorem proxy_replaces_request_url env url auth hdrs tv w parsed proxyUrl :
  new_URL env url = Fulfilled parsed ->
  getProxyUrl env parsed = Some proxyUrl ->
  href proxyUrl <> "" ->
  List.filter isHttpsGet
    (emitted w (snd (downloadAndExtractZstdWithStreaming env url auth hdrs tv w))) =
    [HttpsGet (href proxyUrl) (requestHeaders auth hdrs)
       STREAMING_HIGH_WATERMARK_BYTES].
Proof.
  intros Hparse Hproxy Hne.
  assert (or_else (Some (URL_toString proxyUrl)) url = href proxyUrl) as Htarget.
  { unfold or_else, truthy, URL_toString.
    destruct (String.eqb_spec (href proxyUrl) ""); [contradiction | reflexivity]. }
  unfold downloadAndExtractZstdWithStreaming.
  run_async. rewrite Hparse. run_async. rewrite Hproxy, Htarget.
  run_all; emitted_now; reflexivity.
Qed.

(** Two bundles behind the same proxy: the two attempts send the same
    request, to the proxy. *)
Lemma proxy_replaces_request_url_witness :
  let request :=
    HttpsGet "https://proxy.internal:3128/" (requestHeaders None ∅)
      STREAMING_HIGH_WATERMARK_BYTES in
  zstUrl <> nightlyUrl /\
  List.filter isHttpsGet
    (emitted emptyWorld
       (snd (downloadAndExtractZstdWithStreaming proxiedEnv zstUrl None ∅ None
               emptyWorld))) = [request] /\
  List.filter isHttpsGet
    (emitted emptyWorld
       (snd (downloadAndExtractZstdWithStreaming proxiedEnv nightlyUrl None ∅ None
               emptyWorld))) = [request].
Proof.
  intros request. split; [discriminate|]. split.
  - apply (proxy_replaces_request_url proxiedEnv zstUrl None ∅ None emptyWorld
             (mkURL zstUrl) (mkURL "https://proxy.internal:3128/"));
      [reflexivity | reflexivity | discriminate].
  - apply (proxy_replaces_request_url proxiedEnv nightlyUrl None ∅ None emptyWorld
             (mkURL nightlyUrl) (mkURL "https://proxy.internal:3128/"));
      [reflexivity | reflexivity | discriminate].
Defined.

(** ** Counting the calls *)

Lemma streaming_counts env url auth hdrs tv w :
  let evs :=
    emitted w (snd (downloadAndExtractZstdWithStreaming env url auth hdrs tv w)) in
  count isEnterStreaming evs = 1%nat /\ count isDownloadTool evs = 0%nat.
Proof.
  unfold downloadAndExtractZstdWithStreaming.
  run_all; cbv zeta; emitted_now; split; reflexivity.
Qed.

Lemma streaming_quiet env url auth hdrs tv w :
  let evs :=
    emitted w (snd (downloadAndExtractZstdWithStreaming env url auth hdrs tv w)) in
  count isTarExtract evs = 0%nat /\ count isDel evs = 0%nat /\
  count isCoreWarning evs = 0%nat.
Proof.
  unfold downloadAndExtractZstdWithStreaming.
  run_all; cbv zeta; emitted_now; repeat split; reflexivity.
Qed.

Lemma downloadFirst_counts env url auth hdrs tv tmp m w :
  let evs := emitted w (snd (downloadFirst env url auth hdrs tv tmp m w)) in
  count isEnterStreaming evs = 0%nat /\ count isDownloadTool evs = 1%nat.
Proof.
  unfold downloadFirst.
  run_all; cbv zeta; emitted_now; split; reflexivity.
Qed.

Lemma streamingEligible_iff env m :
  streamingEligible env m = true <-> m = zstd /\ process_platform env = "linux".
Proof.
  unfold streamingEligible. rewrite andb_true_iff, String.eqb_eq.
  destruct m; simpl; intuition congruence.
Qed.

(** What a fulfilled download-first run returns. *)
Lemma downloadFirst_fulfilled env url auth hdrs tv tmp m w r :
  fst (downloadFirst env url auth hdrs tv tmp m w) = Fulfilled r ->
  exists archive path,
    toolcache_downloadTool env url (path_join env tmp (uuidV4 env)) auth hdrs =
      Fulfilled archive /\
    tar_extract env archive m tv = Fulfilled path /\
    r = mkAcquisitionResult path
          (statusReportOf m (sanitizeUrlForStatusReport url)
             (makeDownloadFirstToolsDownloadDurations
                (Math_round
                   (elapsed env
                      (DownloadTool url (path_join env tmp (uuidV4 env)) auth hdrs)))
                (Math_round (elapsed env (TarExtract archive m tv))))).
Proof.
  unfold downloadFirst. run_all; rewrite ?Math_round_elapsed;
    intros Hr; try discriminate Hr.
  all: injection Hr as <-; eauto.
Qed.

Lemma downloadFirst_onPlatform platform env url auth hdrs tv tmp m w :
  downloadFirst (onPlatform platform env) url auth hdrs tv tmp m w =
  downloadFirst env url auth hdrs tv tmp m w.
Proof. reflexivity. Qed.

(** ** The fallback *)

(** The events of a run whose streaming attempt was rejected with [e]. *)
Lemma streaming_failure_shape env url auth hdrs tv tmp w m e :
  inferCompressionMethod (knownSuffixes env) url = Fulfilled m ->
  streamingEligible env m = true ->
  fst (downloadAndExtractZstdWithStreaming env url auth hdrs tv w) = Rejected e ->
  emitted w (snd (downloadAndExtract env url auth hdrs tv tmp w)) =
    [LoggerInfo (downloadingMessage url); LoggerInfo streamingMessage]
    ++ emitted w (snd (downloadAndExtractZstdWithStreaming env url auth hdrs tv w))
    ++ [CoreWarning fallbackMessage; CoreWarning (getErrorMessage e)]
    ++ emitted w (snd (downloadFirst env url auth hdrs tv tmp m w)).
Proof.
  intros Hinfer Hyes Hfail.
  destruct (downloadAndExtract_fallback env url auth hdrs tv tmp w m e
              Hinfer Hyes Hfail) as (w' & Hrun & Htrace & _).
  pose proof (downloadFirst_stable env url auth hdrs tv tmp m w' w) as [_ Hevs].
  pose proof (downloadFirst_extends env url auth hdrs tv tmp m w') as Hext.
  rewrite Hrun. apply emitted_extend.
  rewrite Hext, Htrace, Hevs. rewrite <- !app_assoc. reflexivity.
Qed.

(** When the streaming function is entered and rejects with [e] (the URL
    does not parse, [https.get] throws, the status is not 200 or the
    extractor rejects), the orchestrator warns with the reason of [e], then
    runs the download-first strategy once: the events are those of the streaming attempt, the two
    warnings, and those of the download-first strategy, in this order; the
    streaming function is entered once and the download is made once; and the
    completion (the extracted path and the whole status report, or the error)
    is the one of the download-first strategy on its own, which is also the
    one of the same request on a runner where streaming is not eligible. *)
Lemma streaming_failure_falls_back_once env url auth hdrs tv tmp w m e :
  inferCompressionMethod (knownSuffixes env) url = Fulfilled m ->
  streamingEligible env m = true ->
  fst (downloadAndExtractZstdWithStreaming env url auth hdrs tv w) = Rejected e ->
  let run := downloadAndExtract env url auth hdrs tv tmp w in
  let evs := emitted w (snd run) in
  evs =
    [LoggerInfo (downloadingMessage url); LoggerInfo streamingMessage]
    ++ emitted w (snd (downloadAndExtractZstdWithStreaming env url auth hdrs tv w))
    ++ [CoreWarning fallbackMessage; CoreWarning (getErrorMessage e)]
    ++ emitted w (snd (downloadFirst env url auth hdrs tv tmp m w)) /\
  count isEnterStreaming evs = 1%nat /\
  count isDownloadTool evs = 1%nat /\
  fst run = fst (downloadFirst env url auth hdrs tv tmp m w) /\
  fst run = fst (downloadAndExtract (onPlatform "darwin" env) url auth hdrs tv tmp w).
Proof.
  intros Hinfer Hyes Hfail run evs.
  pose proof (streaming_failure_shape env url auth hdrs tv tmp w m e
                Hinfer Hyes Hfail) as Hshape.
  fold run in Hshape. fold evs in Hshape.
  destruct (downloadAndExtract_fallback env url auth hdrs tv tmp w m e
              Hinfer Hyes Hfail) as (w' & Hrun & _).
  pose proof (downloadFirst_stable env url auth hdrs tv tmp m w' w) as [Hfst _].
  pose proof (streaming_counts env url auth hdrs tv w) as [Hs1 Hs2].
  pose proof (downloadFirst_counts env url auth hdrs tv tmp m w) as [Hd1 Hd2].
  cbv zeta in Hs1, Hs2, Hd1, Hd2.
  split; [exact Hshape|].
  split; [rewrite Hshape, !count_app, Hs1, Hd1; reflexivity|].
  split; [rewrite Hshape, !count_app, Hs2, Hd2; reflexivity|].
  assert (fst run = fst (downloadFirst env url auth hdrs tv tmp m w)) as Hres.
  { subst run. rewrite Hrun. exact Hfst. }
  split; [exact Hres|].
  rewrite Hres.
  rewrite (downloadAndExtract_skip (onPlatform "darwin" env) url auth hdrs tv tmp w m).
  - rewrite downloadFirst_onPlatform.
    apply (downloadFirst_stable env url auth hdrs tv tmp m).
  - exact Hinfer.
  - unfold streamingEligible. cbn [process_platform onPlatform].
    apply andb_false_r.
Qed.

Lemma streaming_failure_falls_back_once_witness :
  inferCompressionMethod (knownSuffixes notFoundEnv) zstUrl = Fulfilled zstd /\
  streamingEligible notFoundEnv zstd = true /\
  fst (downloadAndExtractZstdWithStreaming notFoundEnv zstUrl None ∅ None emptyWorld)
    = Rejected (new_Error (statusCodeMessage zstUrl 404)) /\
  let run := downloadAndExtract notFoundEnv zstUrl None ∅ None "/tmp" emptyWorld in
  count isEnterStreaming (emitted emptyWorld (snd run)) = 1%nat /\
  count isDownloadTool (emitted emptyWorld (snd run)) = 1%nat /\
  fst run = fst (downloadFirst notFoundEnv zstUrl None ∅ None "/tmp" zstd emptyWorld).
Proof.
  assert (inferCompressionMethod (knownSuffixes notFoundEnv) zstUrl
          = Fulfilled zstd) as Hinfer by (vm_compute; reflexivity).
  assert (streamingEligible notFoundEnv zstd = true) as Hyes
    by (vm_compute; reflexivity).
  assert (fst (downloadAndExtractZstdWithStreaming notFoundEnv zstUrl None ∅ None
                 emptyWorld)
          = Rejected (new_Error (statusCodeMessage zstUrl 404))) as Hfail
    by (vm_compute; reflexivity).
  destruct (streaming_failure_falls_back_once notFoundEnv zstUrl None ∅ None
              "/tmp" emptyWorld zstd _ Hinfer Hyes Hfail)
    as (_ & Hone & Honce & Hsame & _).
  repeat split; assumption.
Defined.

(** C1. The code does not fall back on every failure of the streaming
    attempt.  The promise around [https.get] is only ever resolved, and no
    ['error'] listener is put on the request: when the request emits an error
    (the connection is refused or breaks), the error is not caught, the
    streaming function never settles, and [downloadAndExtract] with it: no
    warning is logged, the download-first strategy is not started, and the
    run has no result. *)
Theorem transport_error_is_not_caught env url auth hdrs tv tmp w m parsed e :
  inferCompressionMethod (knownSuffixes env) url = Fulfilled m ->
  streamingEligible env m = true ->
  new_URL env url = Fulfilled parsed ->
  https_get env (connectionTarget env url parsed) (requestHeaders auth hdrs)
    STREAMING_HIGH_WATERMARK_BYTES = EmitsError e ->
  let run := downloadAndExtract env url auth hdrs tv tmp w in
  fst run = Uncaught e /\
  count isEnterStreaming (emitted w (snd run)) = 1%nat /\
  count isCoreWarning (emitted w (snd run)) = 0%nat /\
  count isDownloadTool (emitted w (snd run)) = 0%nat.
Proof.
  intros Hinfer Hyes Hparse Herror run. subst run.
  assert (fst (downloadAndExtractZstdWithStreaming env url auth hdrs tv w)
          = Uncaught e) as Hlost.
  { revert Herror. unfold downloadAndExtractZstdWithStreaming, connectionTarget.
    run_async. rewrite Hparse. run_async. intros ->. reflexivity. }
  destruct (downloadAndExtract_uncaught env url auth hdrs tv tmp w m e
              Hinfer Hyes Hlost) as (Hres & Hevs & _).
  pose proof (streaming_counts env url auth hdrs tv w) as [Hs1 Hs2].
  pose proof (streaming_quiet env url auth hdrs tv w) as (_ & _ & Hq).
  cbv zeta in Hs1, Hs2, Hq.
  split; [exact Hres|].
  rewrite Hevs, !count_app, Hs1, Hs2, Hq. repeat split; reflexivity.
Qed.

Lemma transport_error_is_not_caught_witness :
  let run := downloadAndExtract unreachableEnv zstUrl None ∅ None "/tmp" emptyWorld in
  fst run = Uncaught (new_Error "connect ECONNREFUSED 140.82.112.3:443") /\
  count isEnterStreaming (emitted emptyWorld (snd run)) = 1%nat /\
  count isCoreWarning (emitted emptyWorld (snd run)) = 0%nat /\
  count isDownloadTool (emitted emptyWorld (snd run)) = 0%nat.
Proof.
  apply (transport_error_is_not_caught unreachableEnv zstUrl None ∅ None "/tmp"
           emptyWorld zstd (mkURL zstUrl));
    vm_compute; reflexivity.
Defined.

(** ** The status report *)

(** The completion of the streaming function, in any world. *)
Lemma streaming_completion env url auth hdrs tv w :
  (exists path,
     fst (downloadAndExtractZstdWithStreaming env url auth hdrs tv w) = Fulfilled path)
  \/ (exists e,
        fst (downloadAndExtractZstdWithStreaming env url auth hdrs tv w) = Rejected e)
  \/ (exists e,
        fst (downloadAndExtractZstdWithStreaming env url auth hdrs tv w) = Uncaught e).
Proof.
  destruct (fst (downloadAndExtractZstdWithStreaming env url auth hdrs tv w))
    as [[path|e]|e]; eauto.
Qed.

(** Which strategy produced a fulfilled run. *)
Lemma downloadAndExtract_fulfilled env url auth hdrs tv tmp w r :
  fst (downloadAndExtract env url auth hdrs tv tmp w) = Fulfilled r ->
  exists m,
    inferCompressionMethod (knownSuffixes env) url = Fulfilled m /\
    ((exists path,
        streamingEligible env m = true /\
        fst (downloadAndExtractZstdWithStreaming env url auth hdrs tv w)
          = Fulfilled path /\
        extractedBundlePath r = path /\
        statusReport r =
          statusReportOf m (sanitizeUrlForStatusReport url)
            (makeStreamedToolsDownloadDurations
               (combinedDurationMs (statusReport r))) /\
        count isDownloadTool
          (emitted w (snd (downloadAndExtract env url auth hdrs tv tmp w))) = 0%nat)
     \/ (exists w',
           fst (downloadFirst env url auth hdrs tv tmp m w') = Fulfilled r)).
Proof.
  intros Hr.
  destruct (inferCompressionMethod (knownSuffixes env) url) as [m|e] eqn:Hinfer.
  2:{ rewrite (downloadAndExtract_unrecognized _ _ _ _ _ _ _ _ Hinfer) in Hr.
      discriminate Hr. }
  exists m. split; [reflexivity|].
  destruct (streamingEligible env m) eqn:Hyes.
  - destruct (streaming_completion env url auth hdrs tv w)
      as [[path Hok]|[[e Hfail]|[e Hlost]]].
    + left. exists path.
      destruct (downloadAndExtract_streamed env url auth hdrs tv tmp w m path
                  Hinfer Hyes Hok) as [Hres Hevs].
      cbv zeta in Hres, Hevs. rewrite Hres in Hr. injection Hr as <-.
      repeat split; try assumption.
      rewrite Hevs, !count_app.
      rewrite (proj2 (streaming_counts env url auth hdrs tv w)). reflexivity.
    + right.
      destruct (downloadAndExtract_fallback env url auth hdrs tv tmp w m e
                  Hinfer Hyes Hfail) as (w' & Hrun & _).
      exists w'. rewrite <- Hrun. exact Hr.
    + destruct (downloadAndExtract_uncaught env url auth hdrs tv tmp w m e
                  Hinfer Hyes Hlost) as (Hres & _).
      rewrite Hres in Hr. discriminate Hr.
  - right. exists (announced env url w).
    rewrite <- (downloadAndExtract_skip env url auth hdrs tv tmp w m Hinfer Hyes).
    exact Hr.
Qed.

(** C2, as the code has it.  The status report that [downloadAndExtract]
    returns never has the [zstdFailureReason] field, not even after a
    streaming attempt that failed: the reason of that failure goes to the
    warning log only. *)
Theorem zstdFailureReason_never_set env url auth hdrs tv tmp w r :
  fst (downloadAndExtract env url auth hdrs tv tmp w) = Fulfilled r ->
  zstdFailureReason (statusReport r) = None /\
  (forall m e,
     inferCompressionMethod (knownSuffixes env) url = Fulfilled m ->
     streamingEligible env m = true ->
     fst (downloadAndExtractZstdWithStreaming env url auth hdrs tv w) = Rejected e ->
     List.In (CoreWarning (getErrorMessage e))
       (emitted w (snd (downloadAndExtract env url auth hdrs tv tmp w)))).
Proof.
  intros Hr. split.
  - destruct (downloadAndExtract_fulfilled _ _ _ _ _ _ _ _ Hr)
      as (m & _ & [(path & _ & _ & _ & Hreport & _)|(w' & Hfirst)]).
    + rewrite Hreport. reflexivity.
    + apply downloadFirst_fulfilled in Hfirst as (archive & path & _ & _ & ->).
      reflexivity.
  - intros m e Hinfer Hyes Hfail.
    rewrite (streaming_failure_shape env url auth hdrs tv tmp w m e
               Hinfer Hyes Hfail).
    apply in_or_app. right. apply in_or_app. right.
    right. left. reflexivity.
Qed.

Lemma zstdFailureReason_never_set_witness :
  exists r,
    fst (downloadAndExtract notFoundEnv zstUrl None ∅ None "/tmp" emptyWorld)
      = Fulfilled r /\
    zstdFailureReason (statusReport r) = None /\
    List.In (CoreWarning (statusCodeMessage zstUrl 404))
      (emitted emptyWorld
         (snd (downloadAndExtract notFoundEnv zstUrl None ∅ None "/tmp"
                 emptyWorld))).
Proof.
  eexists. split; [vm_compute; reflexivity|].
  edestruct (zstdFailureReason_never_set notFoundEnv zstUrl None ∅ None "/tmp"
               emptyWorld) as [Habsent Hlogged].
  - vm_compute. reflexivity.
  - split; [exact Habsent|].
    apply (Hlogged zstd (new_Error (statusCodeMessage zstUrl 404)));
      vm_compute; reflexivity.
Defined.

(** C2, as the specification has it, fails: on a linux runner the streaming
    of a zstd bundle is attempted, the server answers 404, the orchestrator
    falls back, and the report it returns has no [zstdFailureReason]. *)
Lemma zstdFailureReason_missing_after_fallback :
  let e := new_Error (statusCodeMessage zstUrl 404) in
  inferCompressionMethod (knownSuffixes notFoundEnv) zstUrl = Fulfilled zstd /\
  streamingEligible notFoundEnv zstd = true /\
  fst (downloadAndExtractZstdWithStreaming notFoundEnv zstUrl None ∅ None
         emptyWorld) = Rejected e /\
  exists r,
    fst (downloadAndExtract notFoundEnv zstUrl None ∅ None "/tmp" emptyWorld)
      = Fulfilled r /\
    zstdFailureReason (statusReport r) = None /\
    zstdFailureReason (statusReport r) <> Some (getErrorMessage e).
Proof.
  intros e.
  split; [vm_compute; reflexivity|].
  split; [vm_compute; reflexivity|].
  split; [vm_compute; reflexivity|].
  eexists. split; [vm_compute; reflexivity|].
  split; [reflexivity | discriminate].
Qed.

(** ** Durations *)

(** C3. When the download-first strategy produced the result, the report has
    [streamExtraction = false], the download duration is the rounded time of
    the download, the extraction duration is the rounded time of the
    extraction, and the combined duration is the sum of these two integers. *)
Theorem buffered_durations_add_up env url auth hdrs tv tmp w r :
  fst (downloadAndExtract env url auth hdrs tv tmp w) = Fulfilled r ->
  count isDownloadTool
    (emitted w (snd (downloadAndExtract env url auth hdrs tv tmp w))) <> 0%nat ->
  exists archive download extraction,
    download =
      Math_round
        (elapsed env (DownloadTool url (path_join env tmp (uuidV4 env)) auth hdrs)) /\
    extraction =
      Math_round
        (elapsed env (TarExtract archive (compressionMethod (statusReport r)) tv)) /\
    streamExtraction (statusReport r) = false /\
    downloadDurationMs (statusReport r) = Some download /\
    extractionDurationMs (statusReport r) = Some extraction /\
    combinedDurationMs (statusReport r) = download + extraction.
Proof.
  intros Hr Hused.
  destruct (downloadAndExtract_fulfilled _ _ _ _ _ _ _ _ Hr)
    as (m & _ & [(path & _ & _ & _ & _ & Hnone)|(w' & Hfirst)]).
  - contradiction.
  - apply downloadFirst_fulfilled in Hfirst as (archive & path & _ & _ & ->).
    exists archive. eexists. eexists. repeat split; reflexivity.
Qed.

Lemma buffered_durations_add_up_witness :
  exists r,
    fst (downloadAndExtract slowEnv zstUrl None ∅ None "/tmp" emptyWorld)
      = Fulfilled r /\
    streamExtraction (statusReport r) = false /\
    downloadDurationMs (statusReport r) = Some 1500 /\
    extractionDurationMs (statusReport r) = Some 2000 /\
    combinedDurationMs (statusReport r) = 3500 /\
    Math_round ((15004 # 10) + (20004 # 10)) = 3501.
Proof.
  eexists. split; [vm_compute; reflexivity|].
  edestruct (buffered_durations_add_up slowEnv zstUrl None ∅ None "/tmp" emptyWorld)
    as (archive & download & extraction & Hd & Hx & Hflag & Hdl & Hex & Hsum).
  - vm_compute. reflexivity.
  - vm_compute. discriminate.
  - split; [exact Hflag|]. repeat split; vm_compute; reflexivity.
Defined.

(** C9. When the streaming function is entered and fulfils with a path, the
    orchestrator returns that path with a report whose [streamExtraction] is
    [true], whose download and extraction durations are absent, and whose
    combined duration is not negative (the clock being monotonic). *)
Theorem streamed_report_shape env url auth hdrs tv tmp w m path :
  monotonicClock env ->
  inferCompressionMethod (knownSuffixes env) url = Fulfilled m ->
  streamingEligible env m = true ->
  fst (downloadAndExtractZstdWithStreaming env url auth hdrs tv w) = Fulfilled path ->
  exists report,
    fst (downloadAndExtract env url auth hdrs tv tmp w)
      = Fulfilled (mkAcquisitionResult path report) /\
    streamExtraction report = true /\
    downloadDurationMs report = None /\
    extractionDurationMs report = None /\
    0 <= combinedDurationMs report.
Proof.
  intros Hmono Hinfer Hyes Hok.
  destruct (downloadAndExtract_streamed env url auth hdrs tv tmp w m path
              Hinfer Hyes Hok) as [Hres _].
  cbv zeta in Hres. eexists. split; [exact Hres|].
  repeat split. cbn [combinedDurationMs statusReportOf
                     makeStreamedToolsDownloadDurations d_combinedDurationMs].
  apply Math_round_nonneg, streaming_clock, Hmono.
Qed.

Lemma sampleElapsed_nonneg (ev : Event) : (0 <= sampleElapsed ev)%Q.
Proof. destruct ev; vm_compute; discriminate. Qed.

Lemma streamed_report_shape_witness :
  monotonicClock streamingEnv /\
  exists report,
    fst (downloadAndExtract streamingEnv zstUrl None ∅ None "/tmp" emptyWorld)
      = Fulfilled (mkAcquisitionResult "/opt/streamed" report) /\
    streamExtraction report = true /\
    downloadDurationMs report = None /\
    extractionDurationMs report = None /\
    0 <= combinedDurationMs report.
Proof.
  split; [exact sampleElapsed_nonneg|].
  apply (streamed_report_shape streamingEnv zstUrl None ∅ None "/tmp" emptyWorld zstd).
  - exact sampleElapsed_nonneg.
  - vm_compute. reflexivity.
  - vm_compute. reflexivity.
  - vm_compute. reflexivity.
Defined.

(** ** Eligibility *)

(** C4. The streaming function is entered once when the URL is classified as
    zstd and the platform is linux, and not at all in every other case (the
    classification failed, the method is gzip, or the platform is another
    one). *)
Theorem streaming_invoked_iff_eligible env url auth hdrs tv tmp w :
  let invocations :=
    count isEnterStreaming
      (emitted w (snd (downloadAndExtract env url auth hdrs tv tmp w))) in
  (inferCompressionMethod (knownSuffixes env) url = Fulfilled zstd /\
   process_platform env = "linux" -> invocations = 1%nat) /\
  (~ (inferCompressionMethod (knownSuffixes env) url = Fulfilled zstd /\
      process_platform env = "linux") -> invocations = 0%nat).
Proof.
  cbv zeta.
  destruct (inferCompressionMethod (knownSuffixes env) url) as [m|e] eqn:Hinfer.
  2:{ rewrite (downloadAndExtract_unrecognized _ _ _ _ _ _ _ _ Hinfer).
      split; [intros [Habs _]; discriminate Habs|]. intros _.
      unfold announced. run_async. emitted_now. reflexivity. }
  destruct (streamingEligible env m) eqn:Hyes.
  - pose proof (proj1 (streamingEligible_iff env m) Hyes) as [-> Hlinux].
    split; [intros _ | intros Hnot; exfalso; apply Hnot; by split].
    pose proof (streaming_counts env url auth hdrs tv w) as [Hs _].
    cbv zeta in Hs.
    destruct (streaming_completion env url auth hdrs tv w)
      as [[path Hok]|[[e Hfail]|[e Hlost]]].
    + destruct (downloadAndExtract_streamed env url auth hdrs tv tmp w zstd path
                  Hinfer Hyes Hok) as [_ Hevs].
      cbv zeta in Hevs. rewrite Hevs, !count_app, Hs. reflexivity.
    + pose proof (streaming_failure_shape env url auth hdrs tv tmp w zstd e
                    Hinfer Hyes Hfail) as Hevs.
      pose proof (downloadFirst_counts env url auth hdrs tv tmp zstd w) as [Hd _].
      cbv zeta in Hd. rewrite Hevs, !count_app, Hs, Hd. reflexivity.
    + destruct (downloadAndExtract_uncaught env url auth hdrs tv tmp w zstd e
                  Hinfer Hyes Hlost) as (_ & Hevs & _).
      rewrite Hevs, !count_app, Hs. reflexivity.
  - split.
    + intros [Hm Hlinux]. injection Hm as ->.
      assert (streamingEligible env zstd = true) as Habs
        by (apply streamingEligible_iff; by split).
      congruence.
    + intros _.
      rewrite (downloadAndExtract_skip env url auth hdrs tv tmp w m Hinfer Hyes).
      pose proof (downloadFirst_extends env url auth hdrs tv tmp m
                    (announced env url w)) as Hext.
      pose proof (downloadFirst_counts env url auth hdrs tv tmp m
                    (announced env url w)) as [Hd _].
      cbv zeta in Hd.
      erewrite emitted_extend
        by (rewrite Hext; unfold announced at 1; run_async;
            rewrite <- app_assoc; reflexivity).
      rewrite count_app, Hd. reflexivity.
Qed.

Lemma streaming_invoked_iff_eligible_witness :
  (inferCompressionMethod (knownSuffixes streamingEnv) zstUrl = Fulfilled zstd /\
   process_platform streamingEnv = "linux") /\
  count isEnterStreaming
    (emitted emptyWorld
       (snd (downloadAndExtract streamingEnv zstUrl None ∅ None "/tmp" emptyWorld)))
    = 1%nat /\
  ~ (inferCompressionMethod (knownSuffixes slowEnv) zstUrl = Fulfilled zstd /\
     process_platform slowEnv = "linux") /\
  count isEnterStreaming
    (emitted emptyWorld
       (snd (downloadAndExtract slowEnv zstUrl None ∅ None "/tmp" emptyWorld)))
    = 0%nat.
Proof.
  assert (inferCompressionMethod (knownSuffixes streamingEnv) zstUrl = Fulfilled zstd /\
          process_platform streamingEnv = "linux") as Hyes
    by (split; vm_compute; reflexivity).
  assert (~ (inferCompressionMethod (knownSuffixes slowEnv) zstUrl = Fulfilled zstd /\
             process_platform slowEnv = "linux")) as Hno
    by (intros [_ Habs]; vm_compute in Habs; discriminate Habs).
  split; [exact Hyes|]. split.
  - exact (proj1 (streaming_invoked_iff_eligible streamingEnv zstUrl None ∅ None
                    "/tmp" emptyWorld) Hyes).
  - split; [exact Hno|].
    exact (proj2 (streaming_invoked_iff_eligible slowEnv zstUrl None ∅ None
                    "/tmp" emptyWorld) Hno).
Defined.

(** ** Unrecognized formats *)

Lemma inferCompressionMethod_unrecognized table url :
  (forall entry, List.In entry table -> endsWith url (fst entry) = false) ->
  inferCompressionMethod table url = Rejected (UnrecognizedFormat url).
Proof.
  intros Hnone. unfold inferCompressionMethod.
  destruct (List.find _ table) as [entry|] eqn:Hfind; [|reflexivity].
  apply List.find_some in Hfind as [Hin Hends].
  rewrite (Hnone entry Hin) in Hends. discriminate Hends.
Qed.

(** C7. When the URL ends with none of the known suffixes, the classification
    fails with [UnrecognizedFormat] and [downloadAndExtract] rejects with
    that error at once: the announcement is the only event of the run, so
    neither the streaming function nor the download, the extraction or the
    clean-up takes place. *)
Theorem unrecognized_format_is_fatal env url auth hdrs tv tmp w :
  (forall entry, List.In entry (knownSuffixes env) ->
     endsWith url (fst entry) = false) ->
  let run := downloadAndExtract env url auth hdrs tv tmp w in
  inferCompressionMethod (knownSuffixes env) url
    = Rejected (UnrecognizedFormat url) /\
  fst run = Rejected (UnrecognizedFormat url) /\
  emitted w (snd run) = [LoggerInfo (downloadingMessage url)] /\
  files (snd run) = files w.
Proof.
  intros Hnone run.
  pose proof (inferCompressionMethod_unrecognized _ _ Hnone) as Hinfer.
  subst run. rewrite (downloadAndExtract_unrecognized _ _ _ _ _ _ _ _ Hinfer).
  unfold announced. run_async.
  split; [exact Hinfer|]. split; [reflexivity|]. split; [|reflexivity].
  emitted_now. reflexivity.
Qed.

Lemma unrecognized_format_is_fatal_witness :
  (forall entry, List.In entry (knownSuffixes streamingEnv) ->
     endsWith zipUrl (fst entry) = false) /\
  let run := downloadAndExtract streamingEnv zipUrl None ∅ None "/tmp" emptyWorld in
  fst run = Rejected (UnrecognizedFormat zipUrl) /\
  emitted emptyWorld (snd run) = [LoggerInfo (downloadingMessage zipUrl)].
Proof.
  assert (forall entry, List.In entry (knownSuffixes streamingEnv) ->
            endsWith zipUrl (fst entry) = false) as Hnone.
  { intros entry [<-|[<-|[]]]; vm_compute; reflexivity. }
  split; [exact Hnone|].
  destruct (unrecognized_format_is_fatal streamingEnv zipUrl None ∅ None "/tmp"
              emptyWorld Hnone) as (_ & Hres & Hevs & _).
  split; assumption.
Defined.

(** ** Clean-up of the archive *)

Lemma removed_file_is_gone (path : string) (disk : gset string) :
  path ∉ disk ∖ {[path]}.
Proof. rewrite elem_of_difference, elem_of_singleton. tauto. Qed.

(** C6. In a download-first run whose download succeeded, the archive is
    deleted once, after the extraction attempt, whether the extraction
    succeeded or failed.  A deletion that succeeds leaves no archive on disk;
    a deletion that fails is logged as a warning, the last event of the run.
    Whatever the deletion does, the run completes as the extraction did: a
    failed extraction rejects the run with its own error, a successful one
    fulfils it. *)
Theorem archive_cleanup_is_unconditional env url auth hdrs tv tmp m w archive :
  toolcache_downloadTool env url (path_join env tmp (uuidV4 env)) auth hdrs
    = Fulfilled archive ->
  let run := downloadFirst env url auth hdrs tv tmp m w in
  let evs := emitted w (snd run) in
  (exists before between after,
     evs = before ++ TarExtract archive m tv :: between ++ Del archive :: after /\
     count isDel before = 0%nat /\ count isDel between = 0%nat /\
     count isDel after = 0%nat) /\
  (del env archive = Fulfilled tt -> archive ∉ files (snd run)) /\
  (forall e', del env archive = Rejected e' ->
     last evs =
       Some (LoggerWarning
               (cleanUpFailedMessage "CodeQL bundle archive" (getErrorMessage e')))) /\
  (forall e, tar_extract env archive m tv = Rejected e -> fst run = Rejected e) /\
  (forall path, tar_extract env archive m tv = Fulfilled path ->
     exists report, fst run = Fulfilled (mkAcquisitionResult path report)).
Proof.
  intros Hdl run evs. subst evs run. unfold downloadFirst. run_async.
  rewrite Hdl. run_all; emitted_now.
  all: split;
    [first
       [ eexists [_; _; _], [_], []; split; [reflexivity|]
       | eexists [_; _; _], [_], [_]; split; [reflexivity|]
       | eexists [_; _; _], [], []; split; [reflexivity|]
       | eexists [_; _; _], [], [_]; split; [reflexivity|] ];
     repeat split; reflexivity|].
  all: split;
    [intros Hdel; first [discriminate Hdel | apply removed_file_is_gone]|].
  all: split;
    [intros e' Hdel;
     first [discriminate Hdel | injection Hdel as <-; reflexivity]|].
  all: split;
    [intros e' Hex;
     first [discriminate Hex | injection Hex as <-; reflexivity]
    |intros path Hex;
     first [discriminate Hex | injection Hex as <-; eexists; reflexivity]].
Qed.

Lemma archive_cleanup_is_unconditional_witness :
  let deleting := brokenArchiveEnv (Fulfilled tt) in
  let stuck := brokenArchiveEnv (Rejected (new_Error "EPERM")) in
  toolcache_downloadTool deleting zstUrl
    (path_join deleting "/tmp" (uuidV4 deleting)) None ∅ = Fulfilled "/tmp/1b9d6bcd" /\
  toolcache_downloadTool stuck zstUrl
    (path_join stuck "/tmp" (uuidV4 stuck)) None ∅ = Fulfilled "/tmp/1b9d6bcd" /\
  ("/tmp/1b9d6bcd"
     ∉ files (snd (downloadFirst deleting zstUrl None ∅ None "/tmp" zstd emptyWorld))) /\
  fst (downloadFirst stuck zstUrl None ∅ None "/tmp" zstd emptyWorld)
    = Rejected (new_Error "tar exited with code 2") /\
  last (emitted emptyWorld
          (snd (downloadFirst stuck zstUrl None ∅ None "/tmp" zstd emptyWorld)))
    = Some (LoggerWarning
              (cleanUpFailedMessage "CodeQL bundle archive" "EPERM")).
Proof.
  intros deleting stuck.
  assert (toolcache_downloadTool deleting zstUrl
            (path_join deleting "/tmp" (uuidV4 deleting)) None ∅
          = Fulfilled "/tmp/1b9d6bcd") as Hdl1 by (vm_compute; reflexivity).
  assert (toolcache_downloadTool stuck zstUrl
            (path_join stuck "/tmp" (uuidV4 stuck)) None ∅
          = Fulfilled "/tmp/1b9d6bcd") as Hdl2 by (vm_compute; reflexivity).
  destruct (archive_cleanup_is_unconditional deleting zstUrl None ∅ None "/tmp"
              zstd emptyWorld _ Hdl1) as (_ & Hgone & _).
  destruct (archive_cleanup_is_unconditional stuck zstUrl None ∅ None "/tmp"
              zstd emptyWorld _ Hdl2) as (_ & _ & Hwarn & Hfatal & _).
  split; [exact Hdl1|]. split; [exact Hdl2|].
  split; [apply Hgone; reflexivity|].
  split; [apply Hfatal; reflexivity|].
  apply (Hwarn (new_Error "EPERM")). reflexivity.
Defined.

(** ** The tar version *)

(** The streaming function starts by recording its arguments, and hands the
    tar version it was given to the streaming extractor. *)
Lemma streaming_forwards_tarVersion env url auth hdrs tv w :
  exists rest,
    emitted w (snd (downloadAndExtractZstdWithStreaming env url auth hdrs tv w)) =
      EnterStreaming url auth hdrs tv :: rest /\
    (forall parsed response, new_URL env url = Fulfilled parsed ->
       https_get env (connectionTarget env url parsed)
         (requestHeaders auth hdrs) STREAMING_HIGH_WATERMARK_BYTES
         = Responds response ->
       statusCode response = 200 ->
       List.In (ExtractTarZst response tv) rest).
Proof.
  unfold downloadAndExtractZstdWithStreaming, connectionTarget.
  run_all; emitted_now; eexists; (split; [reflexivity|]);
    intros parsed answered [= <-] Hanswered H200;
    rewrite Hanswered in Hget; try discriminate Hget; injection Hget as ->.
  all: first
    [ right; right; left; reflexivity
    | apply Z.eqb_neq in Hstatus; contradiction ].
Qed.

(** C10. On an eligible request (a zstd bundle on linux) whose caller passed
    no tar version, [downloadAndExtract] checks nothing: right after the two
    announcements the streaming function is entered with [undefined] for its
    tar version, and when the server answers 200 the streaming extractor is
    called with [undefined] as well. *)
Theorem undefined_tarVersion_reaches_streaming env url auth hdrs tmp w :
  inferCompressionMethod (knownSuffixes env) url = Fulfilled zstd ->
  process_platform env = "linux" ->
  exists rest,
    emitted w (snd (downloadAndExtract env url auth hdrs None tmp w)) =
      LoggerInfo (downloadingMessage url) :: LoggerInfo streamingMessage
      :: EnterStreaming url auth hdrs None :: rest /\
    (forall parsed response, new_URL env url = Fulfilled parsed ->
       https_get env (connectionTarget env url parsed)
         (requestHeaders auth hdrs) STREAMING_HIGH_WATERMARK_BYTES
         = Responds response ->
       statusCode response = 200 ->
       List.In (ExtractTarZst response None) rest).
Proof.
  intros Hinfer Hlinux.
  assert (streamingEligible env zstd = true) as Hyes
    by (apply streamingEligible_iff; by split).
  destruct (streaming_forwards_tarVersion env url auth hdrs None w)
    as (inner & Hinner & Hextract).
  destruct (streaming_completion env url auth hdrs None w)
    as [[path Hok]|[[e Hfail]|[e Hlost]]].
  - destruct (downloadAndExtract_streamed env url auth hdrs None tmp w zstd path
                Hinfer Hyes Hok) as [_ Hevs].
    cbv zeta in Hevs. rewrite Hevs, Hinner.
    eexists. split; [reflexivity|].
    intros parsed response Hparse Hanswered H200. apply in_or_app. left.
    exact (Hextract parsed response Hparse Hanswered H200).
  - rewrite (streaming_failure_shape env url auth hdrs None tmp w zstd e
               Hinfer Hyes Hfail), Hinner.
    eexists. split; [reflexivity|].
    intros parsed response Hparse Hanswered H200. apply in_or_app. left.
    exact (Hextract parsed response Hparse Hanswered H200).
  - destruct (downloadAndExtract_uncaught env url auth hdrs None tmp w zstd e
                Hinfer Hyes Hlost) as (_ & Hevs & _).
    rewrite Hevs, Hinner.
    eexists. split; [reflexivity|].
    intros parsed response Hparse Hanswered H200.
    exact (Hextract parsed response Hparse Hanswered H200).
Qed.

Lemma undefined_tarVersion_reaches_streaming_witness :
  inferCompressionMethod (knownSuffixes streamingEnv) zstUrl = Fulfilled zstd /\
  process_platform streamingEnv = "linux" /\
  exists rest,
    emitted emptyWorld
      (snd (downloadAndExtract streamingEnv zstUrl None ∅ None "/tmp" emptyWorld)) =
      LoggerInfo (downloadingMessage zstUrl) :: LoggerInfo streamingMessage
      :: EnterStreaming zstUrl None ∅ None :: rest /\
    List.In (ExtractTarZst (mkIncomingMessage 200 "") None) rest.
Proof.
  assert (inferCompressionMethod (knownSuffixes streamingEnv) zstUrl
          = Fulfilled zstd) as Hinfer by (vm_compute; reflexivity).
  assert (process_platform streamingEnv = "linux") as Hlinux by reflexivity.
  split; [exact Hinfer|]. split; [exact Hlinux|].
  destruct (undefined_tarVersion_reaches_streaming streamingEnv zstUrl None ∅
              "/tmp" emptyWorld Hinfer Hlinux) as (rest & Hevs & Hextract).
  exists rest. split; [exact Hevs|].
  apply (Hextract (mkURL zstUrl)); reflexivity.
Defined.

(** * Further properties of the download pipeline *)

(** ** The three ways a run can go *)

Lemma downloadAndExtract_streamed_files env url auth hdrs tv tmp w m path :
  inferCompressionMethod (knownSuffixes env) url = Fulfilled m ->
  streamingEligible env m = true ->
  fst (downloadAndExtractZstdWithStreaming env url auth hdrs tv w) = Fulfilled path ->
  files (snd (downloadAndExtract env url auth hdrs tv tmp w)) = {[path]} ∪ files w.
Proof.
  intros Hinfer Hyes Hok.
  pose proof (streaming_stable env url auth hdrs tv (streamingStart env url w) w)
    as [Hfst _].
  pose proof (streaming_files env url auth hdrs tv (streamingStart env url w))
    as Hfiles.
  rewrite Hok in Hfst. rewrite Hfst in Hfiles.
  unfold downloadAndExtract, streamingAttempt. run_async.
  rewrite Hinfer, Hyes. run_async.
  change {| trace := (trace w ++ [LoggerInfo (downloadingMessage url)])
                     ++ [LoggerInfo streamingMessage];
            now := (now w + elapsed env (LoggerInfo (downloadingMessage url))
                    + elapsed env (LoggerInfo streamingMessage))%Q;
            files := files w |}
    with (streamingStart env url w).
  destruct (downloadAndExtractZstdWithStreaming env url auth hdrs tv
              (streamingStart env url w)) as [c w1].
  cbn [fst snd] in *. subst c. run_async. exact Hfiles.
Qed.

(** A run stops at the classification, or returns what the streaming
    function extracted, or goes on with the download-first strategy from a
    world [w'] that differs from the first one by the events [pre], or never
    settles because the streaming function does not. *)
Lemma downloadAndExtract_cases env url auth hdrs tv tmp w :
  let run := downloadAndExtract env url auth hdrs tv tmp w in
  (exists e,
     inferCompressionMethod (knownSuffixes env) url = Rejected e /\
     run = (Settled (Rejected e), announced env url w))
  \/ (exists m path combined,
        inferCompressionMethod (knownSuffixes env) url = Fulfilled m /\
        streamingEligible env m = true /\
        fst (downloadAndExtractZstdWithStreaming env url auth hdrs tv w)
          = Fulfilled path /\
        fst run =
          Fulfilled
            (mkAcquisitionResult path
               (statusReportOf m (sanitizeUrlForStatusReport url)
                  (makeStreamedToolsDownloadDurations combined))) /\
        emitted w (snd run) =
          [LoggerInfo (downloadingMessage url); LoggerInfo streamingMessage]
          ++ emitted w
               (snd (downloadAndExtractZstdWithStreaming env url auth hdrs tv w))
          ++ [LoggerInfo
                (finishedMessage "downloading and extracting" path
                   (formatDuration env combined))] /\
        files (snd run) = {[path]} ∪ files w)
  \/ (exists m w' pre,
        inferCompressionMethod (knownSuffixes env) url = Fulfilled m /\
        run = downloadFirst env url auth hdrs tv tmp m w' /\
        trace w' = trace w ++ pre /\
        files w' = files w /\
        count isDownloadTool pre = 0%nat /\
        count isTarExtract pre = 0%nat /\
        count isDel pre = 0%nat /\
        ((streamingEligible env m = false /\ count isCoreWarning pre = 0%nat)
         \/ (streamingEligible env m = true /\
             (exists e,
                fst (downloadAndExtractZstdWithStreaming env url auth hdrs tv w)
                  = Rejected e) /\
             count isCoreWarning pre = 2%nat)))
  \/ (exists m e,
        inferCompressionMethod (knownSuffixes env) url = Fulfilled m /\
        streamingEligible env m = true /\
        fst (downloadAndExtractZstdWithStreaming env url auth hdrs tv w)
          = Uncaught e /\
        fst run = Uncaught e /\
        emitted w (snd run) =
          [LoggerInfo (downloadingMessage url); LoggerInfo streamingMessage]
          ++ emitted w
               (snd (downloadAndExtractZstdWithStreaming env url auth hdrs tv w)) /\
        files (snd run) = files w).
Proof.
  cbv zeta.
  destruct (inferCompressionMethod (knownSuffixes env) url) as [m|e] eqn:Hinfer.
  2:{ left. exists e. split; [reflexivity|].
      apply downloadAndExtract_unrecognized, Hinfer. }
  right.
  destruct (streamingEligible env m) eqn:Hyes.
  - destruct (streaming_completion env url auth hdrs tv w)
      as [[path Hok]|[[e Hfail]|[e Hlost]]].
    + left.
      destruct (downloadAndExtract_streamed env url auth hdrs tv tmp w m path
                  Hinfer Hyes Hok) as [Hres Hevs].
      cbv zeta in Hres, Hevs.
      eexists m, path, _. repeat split; try eassumption.
      apply (downloadAndExtract_streamed_files env url auth hdrs tv tmp w m path);
        assumption.
    + right. left.
      destruct (downloadAndExtract_fallback env url auth hdrs tv tmp w m e
                  Hinfer Hyes Hfail) as (w' & Hrun & Htrace & Hfiles).
      pose proof (streaming_counts env url auth hdrs tv w) as [_ Hs].
      pose proof (streaming_quiet env url auth hdrs tv w) as (Hq1 & Hq2 & Hq3).
      cbv zeta in Hs, Hq1, Hq2, Hq3.
      eexists m, w', _. split; [reflexivity|]. split; [exact Hrun|].
      split; [exact Htrace|]. split; [exact Hfiles|].
      rewrite !count_app, Hs, Hq1, Hq2, Hq3.
      split; [reflexivity|]. split; [reflexivity|]. split; [reflexivity|].
      right. split; [first [reflexivity | assumption]|]. split; [|reflexivity].
      exists e. exact Hfail.
    + right. right. exists m, e.
      destruct (downloadAndExtract_uncaught env url auth hdrs tv tmp w m e
                  Hinfer Hyes Hlost) as (Hres & Hevs & Hfiles).
      repeat split; assumption.
  - right. left.
    exists m, (announced env url w), [LoggerInfo (downloadingMessage url)].
    split; [reflexivity|].
    split; [apply downloadAndExtract_skip; assumption|].
    split; [reflexivity|]. split; [reflexivity|]. split; [reflexivity|].
    split; [reflexivity|]. split; [reflexivity|].
    left. split; first [reflexivity | assumption].
Qed.

(** The events of a run that goes on with the download-first strategy. *)
Lemma emitted_through env url auth hdrs tv tmp m (w w' : World) pre :
  trace w' = trace w ++ pre ->
  emitted w (snd (downloadFirst env url auth hdrs tv tmp m w')) =
    pre ++ emitted w' (snd (downloadFirst env url auth hdrs tv tmp m w')).
Proof.
  intros Htrace. apply emitted_extend.
  rewrite (downloadFirst_extends env url auth hdrs tv tmp m w'), Htrace.
  by rewrite <- app_assoc.
Qed.

(** Whether the download was made decides between the last two cases. *)
Lemma downloadAndExtract_buffered env url auth hdrs tv tmp w :
  count isDownloadTool
    (emitted w (snd (downloadAndExtract env url auth hdrs tv tmp w))) <> 0%nat ->
  exists m w' pre,
    inferCompressionMethod (knownSuffixes env) url = Fulfilled m /\
    downloadAndExtract env url auth hdrs tv tmp w =
      downloadFirst env url auth hdrs tv tmp m w' /\
    trace w' = trace w ++ pre /\
    files w' = files w /\
    count isTarExtract pre = 0%nat /\
    count isDel pre = 0%nat.
Proof.
  intros Hused.
  destruct (downloadAndExtract_cases env url auth hdrs tv tmp w)
    as [(e & _ & Hrun)
       |[(m & path & combined & _ & _ & _ & _ & Hevs & _)
        |[(m & w' & pre & Hinfer & Hrun & Htrace & Hfiles & _ & Ht & Hd & _)
         |(m & e & _ & _ & _ & _ & Hevs & _)]]].
  - exfalso. apply Hused. rewrite Hrun. unfold announced. run_async.
    emitted_now. reflexivity.
  - exfalso. apply Hused. rewrite Hevs, !count_app.
    rewrite (proj2 (streaming_counts env url auth hdrs tv w)). reflexivity.
  - exists m, w', pre. repeat split; assumption.
  - exfalso. apply Hused. rewrite Hevs, !count_app.
    rewrite (proj2 (streaming_counts env url auth hdrs tv w)). reflexivity.
Qed.

(** ** What the download-first strategy does on each path *)

Lemma downloadFirst_download_rejected env url auth hdrs tv tmp m w e :
  toolcache_downloadTool env url (path_join env tmp (uuidV4 env)) auth hdrs
    = Rejected e ->
  let run := downloadFirst env url auth hdrs tv tmp m w in
  fst run = Rejected e /\
  emitted w (snd run) =
    [DownloadTool url (path_join env tmp (uuidV4 env)) auth hdrs] /\
  files (snd run) = files w.
Proof.
  intros Hdl. cbv zeta. unfold downloadFirst. run_async. rewrite Hdl. run_async.
  emitted_now. repeat split; reflexivity.
Qed.


Lemma downloadFirst_archive_gone env url auth hdrs tv tmp m w archive :
  toolcache_downloadTool env url (path_join env tmp (uuidV4 env)) auth hdrs
    = Fulfilled archive ->
  del env archive = Fulfilled tt ->
  archive ∉ files (snd (downloadFirst env url auth hdrs tv tmp m w)).
Proof.
  intros Hdl Hdel. unfold downloadFirst. run_async. rewrite Hdl. run_async.
  destruct (tar_extract env archive m tv); run_async; rewrite Hdel; run_async;
    apply removed_file_is_gone.
Qed.

(** ** Arithmetic of the combined duration *)

Lemma Math_round_add (a b : Q) :
  Math_round (a + b) - 1 <= Math_round a + Math_round b <= Math_round (a + b) + 1.
Proof.
  unfold Math_round.
  pose proof (Qfloor_le (a + (1 # 2))) as Ha1.
  pose proof (Qlt_floor (a + (1 # 2))) as Ha2.
  pose proof (Qfloor_le (b + (1 # 2))) as Hb1.
  pose proof (Qlt_floor (b + (1 # 2))) as Hb2.
  pose proof (Qfloor_le (a + b + (1 # 2))) as Hc1.
  pose proof (Qlt_floor (a + b + (1 # 2))) as Hc2.
  set (fa := Qfloor (a + (1 # 2))) in *.
  set (fb := Qfloor (b + (1 # 2))) in *.
  set (fc := Qfloor (a + b + (1 # 2))) in *.
  rewrite inject_Z_plus in Ha2, Hb2, Hc2.
  change (inject_Z 1) with (1 # 1)%Q in *.
  clearbody fa fb fc.
  assert (inject_Z fc < inject_Z (fa + fb + 2))%Q as Hlow.
  { rewrite !inject_Z_plus. change (inject_Z 2) with (2 # 1)%Q. lra. }
  assert (inject_Z (fa + fb) < inject_Z (fc + 2))%Q as Hhigh.
  { rewrite !inject_Z_plus. change (inject_Z 2) with (2 # 1)%Q. lra. }
  rewrite <- Zlt_Qlt in Hlow, Hhigh. lia.
Qed.

(** * Extra properties of [tools-download.ts] *)

(** X1. In a run that makes the download, a download that fails is fatal:
    the run rejects with the error of the download, nothing is extracted,
    nothing is deleted (the clean-up only guards the extraction) and the
    disk is as before. *)
Theorem download_failure_is_fatal env url auth hdrs tv tmp w e :
  count isDownloadTool
    (emitted w (snd (downloadAndExtract env url auth hdrs tv tmp w))) <> 0%nat ->
  toolcache_downloadTool env url (path_join env tmp (uuidV4 env)) auth hdrs
    = Rejected e ->
  let run := downloadAndExtract env url auth hdrs tv tmp w in
  fst run = Rejected e /\
  count isTarExtract (emitted w (snd run)) = 0%nat /\
  count isDel (emitted w (snd run)) = 0%nat /\
  files (snd run) = files w.
Proof.
  intros Hused Hdl run. subst run.
  destruct (downloadAndExtract_buffered _ _ _ _ _ _ _ Hused)
    as (m & w' & pre & _ & Hrun & Htrace & Hfiles & Ht & Hd).
  rewrite Hrun.
  destruct (downloadFirst_download_rejected env url auth hdrs tv tmp m w' e Hdl)
    as (Hres & Hevs & Hsame).
  rewrite (emitted_through env url auth hdrs tv tmp m w w' pre Htrace).
  rewrite !count_app, Hevs, Ht, Hd, Hsame, Hfiles.
  repeat split; try reflexivity. exact Hres.
Qed.

Lemma download_failure_is_fatal_witness :
  let run := downloadAndExtract offlineEnv gzUrl None ∅ None "/tmp" emptyWorld in
  fst run = Rejected (new_Error "Unexpected HTTP response: 503") /\
  count isTarExtract (emitted emptyWorld (snd run)) = 0%nat /\
  count isDel (emitted emptyWorld (snd run)) = 0%nat /\
  files (snd run) = files emptyWorld.
Proof.
  apply (download_failure_is_fatal offlineEnv gzUrl None ∅ None "/tmp" emptyWorld).
  - vm_compute. discriminate.
  - reflexivity.
Defined.

(** X2. When the streaming function fulfils, the download-first strategy is
    not touched: no download, no extraction from a file, no deletion and no
    warning. *)
Theorem streaming_success_skips_download_first env url auth hdrs tv tmp w m path :
  inferCompressionMethod (knownSuffixes env) url = Fulfilled m ->
  streamingEligible env m = true ->
  fst (downloadAndExtractZstdWithStreaming env url auth hdrs tv w) = Fulfilled path ->
  let run := downloadAndExtract env url auth hdrs tv tmp w in
  count isDownloadTool (emitted w (snd run)) = 0%nat /\
  count isTarExtract (emitted w (snd run)) = 0%nat /\
  count isDel (emitted w (snd run)) = 0%nat /\
  count isCoreWarning (emitted w (snd run)) = 0%nat.
Proof.
  intros Hinfer Hyes Hok run. subst run.
  destruct (downloadAndExtract_streamed env url auth hdrs tv tmp w m path
              Hinfer Hyes Hok) as [_ Hevs].
  cbv zeta in Hevs.
  pose proof (streaming_counts env url auth hdrs tv w) as [_ Hs].
  pose proof (streaming_quiet env url auth hdrs tv w) as (Hq1 & Hq2 & Hq3).
  cbv zeta in Hs, Hq1, Hq2, Hq3.
  rewrite Hevs, !count_app, Hs, Hq1, Hq2, Hq3.
  repeat split; reflexivity.
Qed.

Lemma streaming_success_skips_download_first_witness :
  let run := downloadAndExtract streamingEnv zstUrl None ∅ None "/tmp" emptyWorld in
  count isDownloadTool (emitted emptyWorld (snd run)) = 0%nat /\
  count isTarExtract (emitted emptyWorld (snd run)) = 0%nat /\
  count isDel (emitted emptyWorld (snd run)) = 0%nat /\
  count isCoreWarning (emitted emptyWorld (snd run)) = 0%nat.
Proof.
  apply (streaming_success_skips_download_first streamingEnv zstUrl None ∅ None
           "/tmp" emptyWorld zstd "/opt/streamed");
    vm_compute; reflexivity.
Defined.

(** X3. Once the URL is parsed and the request is answered, the status of
    the response decides what the streaming function does: any status but
    200 rejects with an error that names the URL and the status, and the
    extractor is not called; on 200 the function settles exactly as the
    streaming extractor does. *)
Theorem streaming_status_decides env url auth hdrs tv w parsed response :
  new_URL env url = Fulfilled parsed ->
  https_get env (connectionTarget env url parsed) (requestHeaders auth hdrs)
    STREAMING_HIGH_WATERMARK_BYTES = Responds response ->
  let run := downloadAndExtractZstdWithStreaming env url auth hdrs tv w in
  (statusCode response <> 200 ->
   fst run = Rejected (new_Error (statusCodeMessage url (statusCode response))) /\
   count isExtractTarZst (emitted w (snd run)) = 0%nat) /\
  (statusCode response = 200 ->
   fst run = tar_extractTarZst env response tv /\
   count isExtractTarZst (emitted w (snd run)) = 1%nat).
Proof.
  intros Hparse Hanswered run. subst run. revert Hanswered.
  unfold downloadAndExtractZstdWithStreaming, connectionTarget.
  run_async. rewrite Hparse. run_async. intros ->. run_async.
  destruct (statusCode response =? 200) eqn:Hstatus; cbn [negb]; run_async.
  - apply Z.eqb_eq in Hstatus.
    destruct (tar_extractTarZst env response tv) as [path|e]; run_async;
      emitted_now; (split; [intros Hcode; contradiction|]);
      intros _; split; reflexivity.
  - apply Z.eqb_neq in Hstatus. emitted_now.
    split; [intros _; split; reflexivity | intros Hcode; contradiction].
Qed.

Lemma streaming_status_decides_witness :
  let run :=
    downloadAndExtractZstdWithStreaming notFoundEnv zstUrl None ∅ None emptyWorld in
  new_URL notFoundEnv zstUrl = Fulfilled (mkURL zstUrl) /\
  fst run = Rejected (new_Error (statusCodeMessage zstUrl 404)) /\
  count isExtractTarZst (emitted emptyWorld (snd run)) = 0%nat.
Proof.
  intros run. split; [reflexivity|].
  apply (proj1 (streaming_status_decides notFoundEnv zstUrl None ∅ None emptyWorld
                  (mkURL zstUrl) (mkIncomingMessage 404 "") eq_refl eq_refl)).
  vm_compute. discriminate.
Defined.

(** X4. A URL that [new URL] refuses makes the streaming function reject with
    the error of the parser before any request is sent. *)
Theorem unparsable_url_sends_no_request env url auth hdrs tv w e :
  new_URL env url = Rejected e ->
  let run := downloadAndExtractZstdWithStreaming env url auth hdrs tv w in
  fst run = Rejected e /\
  emitted w (snd run) = [EnterStreaming url auth hdrs tv; NewURL url] /\
  count isHttpsGet (emitted w (snd run)) = 0%nat.
Proof.
  intros Hparse run. subst run. unfold downloadAndExtractZstdWithStreaming.
  run_async. rewrite Hparse. run_async. emitted_now.
  repeat split; reflexivity.
Qed.

Lemma unparsable_url_sends_no_request_witness :
  let run :=
    downloadAndExtractZstdWithStreaming strictParserEnv zstUrl None ∅ None
      emptyWorld in
  fst run = Rejected (mkJsError "TypeError" "Invalid URL") /\
  emitted emptyWorld (snd run) = [EnterStreaming zstUrl None ∅ None; NewURL zstUrl] /\
  count isHttpsGet (emitted emptyWorld (snd run)) = 0%nat.
Proof.
  apply (unparsable_url_sends_no_request strictParserEnv zstUrl None ∅ None
           emptyWorld).
  reflexivity.
Defined.

(** X5. The status report of a fulfilled run names the classified
    compression method, and its URL went through the sanitizer: a URL
    without a trusted prefix never reaches the report. *)
Theorem report_url_is_sanitized env url auth hdrs tv tmp w r :
  fst (downloadAndExtract env url auth hdrs tv tmp w) = Fulfilled r ->
  inferCompressionMethod (knownSuffixes env) url
    = Fulfilled (compressionMethod (statusReport r)) /\
  toolsUrl (statusReport r) = sanitizeUrlForStatusReport url /\
  (~ beginsWithTrustedPrefix url -> toolsUrl (statusReport r) = "sanitized-value").
Proof.
  intros Hr.
  assert (inferCompressionMethod (knownSuffixes env) url
            = Fulfilled (compressionMethod (statusReport r)) /\
          toolsUrl (statusReport r) = sanitizeUrlForStatusReport url)
    as [Hmethod Hurl].
  { destruct (downloadAndExtract_fulfilled _ _ _ _ _ _ _ _ Hr)
      as (m & Hinfer & [(path & _ & _ & _ & Hreport & _)|(w' & Hfirst)]).
    - rewrite Hreport. split; [exact Hinfer | reflexivity].
    - apply downloadFirst_fulfilled in Hfirst as (archive & path & _ & _ & ->).
      split; [exact Hinfer | reflexivity]. }
  split; [exact Hmethod|]. split; [exact Hurl|].
  intros Hnot. rewrite Hurl. unfold sanitizeUrlForStatusReport.
  destruct (some _ trustedRepos) eqn:Hsome; [|reflexivity].
  apply some_trusted_prefix in Hsome. contradiction.
Qed.

Lemma report_url_is_sanitized_witness :
  exists r,
    fst (downloadAndExtract slowEnv gzUrl None ∅ None "/tmp" emptyWorld)
      = Fulfilled r /\
    compressionMethod (statusReport r) = gzip /\
    toolsUrl (statusReport r) = "sanitized-value".
Proof.
  eexists. split; [vm_compute; reflexivity|].
  edestruct (report_url_is_sanitized slowEnv gzUrl None ∅ None "/tmp" emptyWorld)
    as (Hmethod & _ & Hhidden).
  - vm_compute. reflexivity.
  - split; [reflexivity|]. apply Hhidden. exact gzUrl_untrusted.
Defined.

(** X6. The two shapes of a report never mix: in every fulfilled run the
    download and the extraction durations are both absent when
    [streamExtraction] is [true] and both present when it is [false]. *)
Theorem report_variants_never_mix env url auth hdrs tv tmp w r :
  fst (downloadAndExtract env url auth hdrs tv tmp w) = Fulfilled r ->
  (streamExtraction (statusReport r) = true /\
   downloadDurationMs (statusReport r) = None /\
   extractionDurationMs (statusReport r) = None)
  \/ (streamExtraction (statusReport r) = false /\
      is_Some (downloadDurationMs (statusReport r)) /\
      is_Some (extractionDurationMs (statusReport r))).
Proof.
  intros Hr.
  destruct (downloadAndExtract_fulfilled _ _ _ _ _ _ _ _ Hr)
    as (m & _ & [(path & _ & _ & _ & Hreport & _)|(w' & Hfirst)]).
  - left. rewrite Hreport. repeat split.
  - right. apply downloadFirst_fulfilled in Hfirst as (archive & path & _ & _ & ->).
    cbn. repeat split; eexists; reflexivity.
Qed.

Lemma report_variants_never_mix_witness :
  exists r,
    fst (downloadAndExtract notFoundEnv zstUrl None ∅ None "/tmp" emptyWorld)
      = Fulfilled r /\
    ((streamExtraction (statusReport r) = true /\
      downloadDurationMs (statusReport r) = None /\
      extractionDurationMs (statusReport r) = None)
     \/ (streamExtraction (statusReport r) = false /\
         is_Some (downloadDurationMs (statusReport r)) /\
         is_Some (extractionDurationMs (statusReport r)))).
Proof.
  eexists. split; [vm_compute; reflexivity|].
  apply (report_variants_never_mix notFoundEnv zstUrl None ∅ None "/tmp" emptyWorld).
  vm_compute. reflexivity.
Defined.

(** X7. The temporary archive does not outlive the run: when the download
    was made and fulfilled with an archive that can be deleted, the archive
    is not on disk after the run, whether the run first tried streaming or
    not and whether the extraction succeeded or failed. *)
Theorem no_archive_left_behind env url auth hdrs tv tmp w archive :
  count isDownloadTool
    (emitted w (snd (downloadAndExtract env url auth hdrs tv tmp w))) <> 0%nat ->
  toolcache_downloadTool env url (path_join env tmp (uuidV4 env)) auth hdrs
    = Fulfilled archive ->
  del env archive = Fulfilled tt ->
  archive ∉ files (snd (downloadAndExtract env url auth hdrs tv tmp w)).
Proof.
  intros Hused Hdl Hdel.
  destruct (downloadAndExtract_buffered _ _ _ _ _ _ _ Hused)
    as (m & w' & pre & _ & Hrun & _).
  rewrite Hrun. apply downloadFirst_archive_gone; assumption.
Qed.

Lemma no_archive_left_behind_witness :
  let env := brokenArchiveEnv (Fulfilled tt) in
  let run := downloadAndExtract env zstUrl None ∅ None "/tmp" emptyWorld in
  fst run = Rejected (new_Error "tar exited with code 2") /\
  "/tmp/1b9d6bcd" ∉ files (snd run).
Proof.
  intros env run. split; [vm_compute; reflexivity|].
  apply (no_archive_left_behind env zstUrl None ∅ None "/tmp" emptyWorld).
  - vm_compute. discriminate.
  - vm_compute. reflexivity.
  - reflexivity.
Defined.



(** X9. [core.warning] is called twice in a run whose streaming attempt was
    rejected, and never in any other run: a run that streams, a run that
    skips streaming and a run that stops at the classification warn of
    nothing. *)
Theorem warnings_only_on_fallback env url auth hdrs tv tmp w :
  let warnings :=
    count isCoreWarning
      (emitted w (snd (downloadAndExtract env url auth hdrs tv tmp w))) in
  let fellBack :=
    exists m e,
      inferCompressionMethod (knownSuffixes env) url = Fulfilled m /\
      streamingEligible env m = true /\
      fst (downloadAndExtractZstdWithStreaming env url auth hdrs tv w) = Rejected e in
  (fellBack -> warnings = 2%nat) /\ (~ fellBack -> warnings = 0%nat).
Proof.
  cbv zeta.
  assert (forall m w',
            count isCoreWarning
              (emitted w' (snd (downloadFirst env url auth hdrs tv tmp m w')))
            = 0%nat) as Hfirst.
  { intros m w'. unfold downloadFirst. run_all; emitted_now; reflexivity. }
  destruct (downloadAndExtract_cases env url auth hdrs tv tmp w)
    as [(e & Hinfer & Hrun)
       |[(m & path & combined & Hinfer & Hyes & Hok & _ & Hevs & _)
        |[(m & w' & pre & Hinfer & Hrun & Htrace & _ & _ & _ & _ & Hpre)
         |(m & e & Hinfer & Hyes & Hlost & _ & Hevs & _)]]].
  - split.
    + intros (m & e' & Habs & _). congruence.
    + intros _. rewrite Hrun. unfold announced. run_async. emitted_now.
      reflexivity.
  - split.
    + intros (m' & e' & Hinfer' & _ & Hfail). congruence.
    + intros _. rewrite Hevs, !count_app.
      rewrite (proj2 (proj2 (streaming_quiet env url auth hdrs tv w))).
      reflexivity.
  - rewrite Hrun, (emitted_through env url auth hdrs tv tmp m w w' pre Htrace).
    rewrite count_app, Hfirst.
    destruct Hpre as [[Hno Hzero]|(Hyes & (e & Hfail) & Htwo)].
    + split.
      * intros (m' & e' & Hinfer' & Hyes' & _). congruence.
      * intros _. rewrite Hzero. reflexivity.
    + split.
      * intros _. rewrite Htwo. reflexivity.
      * intros Hnot. exfalso. apply Hnot. exists m, e. repeat split; assumption.
  - split.
    + intros (m' & e' & Hinfer' & _ & Hfail). congruence.
    + intros _. rewrite Hevs, !count_app.
      rewrite (proj2 (proj2 (streaming_quiet env url auth hdrs tv w))).
      reflexivity.
Qed.

Lemma warnings_only_on_fallback_witness :
  count isCoreWarning
    (emitted emptyWorld
       (snd (downloadAndExtract notFoundEnv zstUrl None ∅ None "/tmp" emptyWorld)))
    = 2%nat /\
  count isCoreWarning
    (emitted emptyWorld
       (snd (downloadAndExtract slowEnv zstUrl None ∅ None "/tmp" emptyWorld)))
    = 0%nat.
Proof.
  split.
  - apply (proj1 (warnings_only_on_fallback notFoundEnv zstUrl None ∅ None "/tmp"
                    emptyWorld)).
    exists zstd, (new_Error (statusCodeMessage zstUrl 404)).
    repeat split; vm_compute; reflexivity.
  - apply (proj2 (warnings_only_on_fallback slowEnv zstUrl None ∅ None "/tmp"
                    emptyWorld)).
    intros (m & e & Hinfer & Hyes & _).
    vm_compute in Hinfer. injection Hinfer as <-.
    vm_compute in Hyes. discriminate Hyes.
Defined.

Lemma Math_round_of_nonneg (d : Q) : (0 <= d)%Q -> 0 <= Math_round d.
Proof.
  intros Hd. unfold Math_round. change 0 with (Qfloor 0).
  apply Qfloor_resp_le. lra.
Qed.

(** X10. With a monotonic clock, the durations of a run that made the
    download are not negative, and the combined duration, the sum of two
    rounded phases, is within one millisecond of the rounded time of the
    two phases together. *)
Theorem buffered_combined_close_to_total env url auth hdrs tv tmp w r :
  monotonicClock env ->
  fst (downloadAndExtract env url auth hdrs tv tmp w) = Fulfilled r ->
  count isDownloadTool
    (emitted w (snd (downloadAndExtract env url auth hdrs tv tmp w))) <> 0%nat ->
  exists archive download extraction,
    downloadDurationMs (statusReport r) = Some download /\
    extractionDurationMs (statusReport r) = Some extraction /\
    0 <= download /\ 0 <= extraction /\
    0 <= combinedDurationMs (statusReport r) /\
    let total :=
      (elapsed env (DownloadTool url (path_join env tmp (uuidV4 env)) auth hdrs)
       + elapsed env
           (TarExtract archive (compressionMethod (statusReport r)) tv))%Q in
    Math_round total - 1 <= combinedDurationMs (statusReport r)
      <= Math_round total + 1.
Proof.
  intros Hmono Hr Hused.
  destruct (downloadAndExtract_fulfilled _ _ _ _ _ _ _ _ Hr)
    as (m & _ & [(path & _ & _ & _ & _ & Hnone)|(w' & Hfirst)]).
  - contradiction.
  - apply downloadFirst_fulfilled in Hfirst as (archive & path & _ & _ & ->).
    exists archive. eexists. eexists.
    split; [reflexivity|]. split; [reflexivity|].
    cbn [statusReport compressionMethod combinedDurationMs statusReportOf
         makeDownloadFirstToolsDownloadDurations d_combinedDurationMs].
    pose proof (Math_round_of_nonneg _ (Hmono
      (DownloadTool url (path_join env tmp (uuidV4 env)) auth hdrs))) as Hd.
    pose proof (Math_round_of_nonneg _ (Hmono (TarExtract archive m tv))) as Hx.
    split; [exact Hd|]. split; [exact Hx|]. split; [lia|].
    apply Math_round_add.
Qed.

Lemma buffered_combined_close_to_total_witness :
  monotonicClock slowEnv /\
  exists r,
    fst (downloadAndExtract slowEnv zstUrl None ∅ None "/tmp" emptyWorld)
      = Fulfilled r /\
    combinedDurationMs (statusReport r) = 3500 /\
    Math_round ((15004 # 10) + (20004 # 10)) - 1
      <= combinedDurationMs (statusReport r)
      <= Math_round ((15004 # 10) + (20004 # 10)) + 1.
Proof.
  split; [exact sampleElapsed_nonneg|].
  eexists. split; [vm_compute; reflexivity|].
  edestruct (buffered_combined_close_to_total slowEnv zstUrl None ∅ None "/tmp"
               emptyWorld)
    as (archive & download & extraction & _ & _ & _ & _ & _ & Hclose).
  - exact sampleElapsed_nonneg.
  - vm_compute. reflexivity.
  - vm_compute. discriminate.
  - split; [reflexivity|]. vm_compute. split; discriminate.
Defined.

(** X11. The names of the headers of the streaming request are those of the
    caller, [User-Agent], and [authorization] when an authorization that is
    not the empty string is given: an empty authorization adds no header. *)
Theorem requestHeaders_names (authorization : option string)
    (headers : OutgoingHttpHeaders) :
  dom (requestHeaders authorization headers) =
    dom headers ∪ {[ "User-Agent" ]}
    ∪ (if truthy authorization then {[ "authorization" ]} else ∅).
Proof.
  unfold requestHeaders, Object_assign. cbn [fold_left].
  rewrite !dom_union_L, dom_singleton_L.
  assert (forall names : gset string,
            dom headers ∪ (names ∪ {[ "User-Agent" ]})
            = dom headers ∪ {[ "User-Agent" ]} ∪ names) as Hshuffle.
  { intros names. apply leibniz_equiv. intros k.
    rewrite !elem_of_union. tauto. }
  destruct authorization as [a|]; cbn [truthy].
  - destruct (negb (a =? "")%string).
    + rewrite dom_singleton_L. apply Hshuffle.
    + rewrite dom_empty_L. apply Hshuffle.
  - rewrite dom_empty_L. apply Hshuffle.
Qed.

(** * Extra properties of [upload-sarif-action-post.ts] *)

Module UploadSarifPostFacts.

Import UploadSarifPost.

(** X12. The post hook uploads unless the variable that the init action sets
    is exactly ["true"]: when it is, nothing at all is called; when it is
    unset or has any other value, the upload is called once, first. *)
Theorem upload_unless_init_has_run (env : Env) :
  (process_env env !! INIT_ACTION_HAS_RUN env = Some "true" ->
   snd (runWrapper env) = []) /\
  (process_env env !! INIT_ACTION_HAS_RUN env <> Some "true" ->
   exists rest,
     snd (runWrapper env) = UploadArtifacts :: rest /\
     Forall (fun ev => ev <> UploadArtifacts) rest).
Proof.
  unfold runWrapper. split; intros Hvar.
  - rewrite bool_decide_eq_true_2 by exact Hvar. reflexivity.
  - rewrite bool_decide_eq_false_2 by exact Hvar. cbn [negb].
    destruct (uploadArtifacts env) as [[]|e]; eexists; (split; [reflexivity|]).
    + constructor.
    + constructor; [discriminate | constructor].
Qed.

Lemma upload_unless_init_has_run_witness :
  snd (runWrapper (firstPartyEnv (Fulfilled tt))) = [] /\
  exists rest,
    snd (runWrapper (thirdPartyEnv (Fulfilled tt))) = UploadArtifacts :: rest.
Proof.
  split.
  - apply (proj1 (upload_unless_init_has_run (firstPartyEnv (Fulfilled tt)))).
    reflexivity.
  - destruct (proj2 (upload_unless_init_has_run (thirdPartyEnv (Fulfilled tt))))
      as (rest & Hrest & _); [vm_compute; discriminate|].
    exists rest. exact Hrest.
Defined.

(** X13. The post hook never rejects.  A failed upload is turned into one
    call of [core.setFailed], the last call of the hook, whose message is the
    fixed prefix followed by the message of the wrapped error; without a
    failed upload [core.setFailed] is not called. *)
Theorem runWrapper_never_rejects (env : Env) :
  fst (runWrapper env) = Fulfilled tt /\
  (forall e,
     process_env env !! INIT_ACTION_HAS_RUN env <> Some "true" ->
     uploadArtifacts env = Rejected e ->
     snd (runWrapper env) =
       [UploadArtifacts;
        SetFailed (failedMessage (message (wrapError env e)))]) /\
  ((process_env env !! INIT_ACTION_HAS_RUN env = Some "true"
    \/ uploadArtifacts env = Fulfilled tt) ->
   List.filter isSetFailed (snd (runWrapper env)) = []).
Proof.
  unfold runWrapper.
  destruct (bool_decide (process_env env !! INIT_ACTION_HAS_RUN env = Some "true"))
    eqn:Hvar; cbn [negb].
  - apply bool_decide_eq_true_1 in Hvar.
    split; [reflexivity|]. split; [intros e Hne; contradiction | reflexivity].
  - apply bool_decide_eq_false_1 in Hvar.
    destruct (uploadArtifacts env) as [[]|e].
    + split; [reflexivity|]. split; [intros e _ Habs; discriminate Habs|].
      reflexivity.
    + split; [reflexivity|]. split.
      * intros e' _ [= <-]. reflexivity.
      * intros [Habs|Habs]; [contradiction | discriminate Habs].
Qed.

Lemma runWrapper_never_rejects_witness :
  let env := thirdPartyEnv (Rejected (new_Error "artifact quota exceeded")) in
  fst (runWrapper env) = Fulfilled tt /\
  snd (runWrapper env) =
    [UploadArtifacts;
     SetFailed "upload-sarif post-action step failed: artifact quota exceeded"].
Proof.
  intros env.
  destruct (runWrapper_never_rejects env) as (Hok & Hfailed & _).
  split; [exact Hok|].
  apply (Hfailed (new_Error "artifact quota exceeded")).
  - vm_compute. discriminate.
  - reflexivity.
Defined.

End UploadSarifPostFacts.

(** * Extra properties of the feature flags *)

Module FeatureFlagsFacts.

Import FeatureFlags.

Ltac run_flags :=
  repeat (progress
    (cbv beta iota zeta delta
       [mbind mret mthrow write request getApiResponse
        GitHubFeatureFlags_getValue loadApiResponse];
     cbn [cachedApiResponse log requests fst snd negb andb orb])).

Lemma Feature_eqb_eq (a b : Feature) : Feature_eqb a b = true <-> a = b.
Proof. destruct a, b; vm_compute; split; congruence. Qed.

Lemma minimumVersion_truthy (flag : Feature) :
  truthy (minimumVersion (featureConfig flag)) = true
  <-> flag = MlPoweredQueriesEnabled \/ flag = CliConfigFileEnabled.
Proof. destruct flag; vm_compute; intuition congruence. Qed.

(** X14. Asking for a flag that has a minimum CLI version without handing in
    a [CodeQL] object is an internal error: [getValue] rejects before it
    looks at the environment or the API, and changes nothing.  The flags
    concerned are the ML-powered queries and the CLI configuration file. *)
Theorem getValue_needs_codeql_for_versioned_flags env flag st :
  flag = MlPoweredQueriesEnabled \/ flag = CliConfigFileEnabled ->
  getValue env flag None st =
    (Rejected (new_Error (internalErrorMessage flag)), st).
Proof.
  intros Hflag. apply minimumVersion_truthy in Hflag.
  unfold getValue. rewrite Hflag. reflexivity.
Qed.

(** X15. For a flag without a minimum version the [CodeQL] object does not
    matter: [getValue] behaves the same with any or with none. *)
Theorem getValue_ignores_codeql_for_unversioned_flags env flag codeql st :
  flag <> MlPoweredQueriesEnabled -> flag <> CliConfigFileEnabled ->
  getValue env flag codeql st = getValue env flag None st.
Proof.
  intros Hml Hcli.
  destruct flag; try contradiction; destruct codeql; reflexivity.
Qed.

Lemma wellCalled_guard flag codeql :
  wellCalled flag codeql ->
  negb (bool_decide (is_Some codeql))
  && truthy (minimumVersion (featureConfig flag)) = false.
Proof.
  intros [Hsome| ->].
  - rewrite bool_decide_eq_true_2 by exact Hsome. reflexivity.
  - cbn [truthy]. apply andb_false_r.
Qed.

(** X16. A variable set to ["false"], in any case the lower-casing maps to
    it, switches the flag off: no version check, no API request, nothing
    changes. *)
Theorem env_false_disables env flag codeql st :
  wellCalled flag codeql ->
  envVarValue env flag = "false" ->
  getValue env flag codeql st = (Fulfilled false, st).
Proof.
  intros Hcall Hvar. unfold getValue.
  rewrite (wellCalled_guard _ _ Hcall), Hvar.
  destruct (Feature_eqb flag BypassToolcacheEnabled && isInTestMode env);
    reflexivity.
Qed.

(** X17. In test mode the toolcache is never bypassed, whatever the
    environment variable and the API say. *)
Theorem test_mode_never_bypasses_toolcache env codeql st :
  isInTestMode env = true ->
  getValue env BypassToolcacheEnabled codeql st = (Fulfilled false, st).
Proof.
  intros Htest. unfold getValue. rewrite Htest.
  destruct codeql; reflexivity.
Qed.

(** X18. A CLI older than the minimum version of a flag keeps the flag off
    even when the variable is set to ["true"]: nothing is requested from the
    API and nothing changes. *)
Theorem old_cli_disables_even_when_forced env flag cli minimum st :
  minimumVersion (featureConfig flag) = Some minimum ->
  codeQlVersionAbove env cli minimum = Fulfilled false ->
  getValue env flag (Some cli) st = (Fulfilled false, st).
Proof.
  intros Hmin Hold. unfold getValue.
  rewrite (wellCalled_guard flag (Some cli)) by (left; eauto).
  destruct (Feature_eqb flag BypassToolcacheEnabled && isInTestMode env);
    [reflexivity|].
  destruct (String.eqb (envVarValue env flag) "false"); [reflexivity|].
  rewrite Hmin.
  assert (truthy (Some minimum) = true) as Htruthy.
  { destruct flag; cbn in Hmin; try discriminate Hmin;
      injection Hmin as <-; reflexivity. }
  rewrite Htruthy. run_flags. rewrite Hold. reflexivity.
Qed.

(** X19. A variable set to ["true"] switches the flag on when the CLI
    allows it (and it is not the toolcache bypass in test mode), without any
    API request. *)
Theorem env_true_enables env flag codeql st :
  envVarValue env flag = "true" ->
  versionAllows env flag codeql ->
  Feature_eqb flag BypassToolcacheEnabled && isInTestMode env = false ->
  getValue env flag codeql st = (Fulfilled true, st).
Proof.
  intros Hvar Hversion Hbypass. unfold getValue.
  rewrite Hbypass, Hvar.
  destruct Hversion as [Hnone|(cli & minimum & -> & Hmin & Hok)].
  - rewrite Hnone. cbn [truthy]. rewrite andb_false_r.
    destruct codeql; reflexivity.
  - rewrite Hmin.
    assert (truthy (Some minimum) = true) as Htruthy.
    { destruct flag; cbn in Hmin; try discriminate Hmin;
        injection Hmin as <-; reflexivity. }
    rewrite Htruthy. cbn [negb andb bool_decide].
    rewrite bool_decide_eq_true_2 by eauto. run_flags. rewrite Hok.
    reflexivity.
Qed.

(** X20. The API is asked once: after a first answer, a second call of
    [getValue], for the same or another flag, is answered from the cached
    response and sends no request, whatever the API would say by then.  A
    flag that the response does not mention is off. *)
Theorem api_response_is_cached env first second st data :
  gitHubVersion_type env = DOTCOM ->
  cachedApiResponse st = None ->
  client_request env (requests st) = inr data ->
  let run1 := GitHubFeatureFlags_getValue env first st in
  let run2 := GitHubFeatureFlags_getValue env second (snd run1) in
  fst run1 = Fulfilled (default false (data first)) /\
  fst run2 = Fulfilled (default false (data second)) /\
  requests (snd run2) = S (requests st) /\
  List.filter isApiRequest (log (snd run2)) =
    List.filter isApiRequest (log st)
    ++ [ApiRequest featuresRoute (repositoryNwo_owner env) (repositoryNwo_repo env)] /\
  cachedApiResponse (snd run2) = Some data.
Proof.
  intros Hdotcom Hcache Hanswer. cbv zeta.
  run_flags. rewrite Hcache, Hdotcom. cbn [GitHubVariant_eqb]. run_flags.
  rewrite Hanswer. run_flags.
  destruct (data first) as [[]|]; run_flags;
    destruct (data second) as [[]|]; run_flags;
    rewrite ?List.filter_app, ?app_nil_r; repeat split; reflexivity.
Qed.

(** X21. A 403 from the API is not an error and is not cached: the flag is
    off, a warning and a debug line are logged, and the cache stays empty, so
    that the next call asks the API again. *)
Theorem forbidden_api_disables_without_caching env flag st e :
  gitHubVersion_type env = DOTCOM ->
  cachedApiResponse st = None ->
  client_request env (requests st) = inl e ->
  isHTTPError env e = true ->
  status e = Some 403 ->
  let run := GitHubFeatureFlags_getValue env flag st in
  fst run = Fulfilled false /\
  cachedApiResponse (snd run) = None /\
  requests (snd run) = S (requests st) /\
  log (snd run) =
    log st
    ++ [ApiRequest featuresRoute (repositoryNwo_owner env) (repositoryNwo_repo env);
        LoggerWarning (forbiddenMessage e);
        LoggerDebug (noResponseMessage flag)].
Proof.
  intros Hdotcom Hcache Hanswer Hhttp Hstatus. cbv zeta.
  run_flags. rewrite Hcache, Hdotcom. cbn [GitHubVariant_eqb]. run_flags.
  rewrite Hanswer. run_flags. rewrite Hhttp, Hstatus.
  rewrite bool_decide_eq_true_2 by reflexivity. run_flags.
  repeat split; try reflexivity. by rewrite <- !app_assoc.
Qed.

(** X22. Any other failure of the API request is fatal: [getValue] rejects
    with an error that wraps the failure, logs no warning, and caches
    nothing. *)
Theorem other_api_failure_is_fatal env flag st e :
  gitHubVersion_type env = DOTCOM ->
  cachedApiResponse st = None ->
  client_request env (requests st) = inl e ->
  isHTTPError env e = false \/ status e <> Some 403 ->
  let run := GitHubFeatureFlags_getValue env flag st in
  fst run = Rejected (new_Error (loadErrorMessage e)) /\
  cachedApiResponse (snd run) = None /\
  log (snd run) =
    log st
    ++ [ApiRequest featuresRoute (repositoryNwo_owner env) (repositoryNwo_repo env)].
Proof.
  intros Hdotcom Hcache Hanswer Hother. cbv zeta.
  run_flags. rewrite Hcache, Hdotcom. cbn [GitHubVariant_eqb]. run_flags.
  rewrite Hanswer. run_flags.
  assert (isHTTPError env e && bool_decide (status e = Some 403) = false) as ->.
  { destruct Hother as [-> | Hne]; [reflexivity|].
    rewrite bool_decide_eq_false_2 by exact Hne. apply andb_false_r. }
  run_flags. repeat split; try reflexivity. exact Hcache.
Qed.

(** X23. Away from github.com the API is never asked: every flag is off, the
    empty response is cached, and two debug lines say why. *)
Theorem no_api_request_off_dotcom env flag st :
  gitHubVersion_type env <> DOTCOM ->
  cachedApiResponse st = None ->
  let run := GitHubFeatureFlags_getValue env flag st in
  fst run = Fulfilled false /\
  requests (snd run) = requests st /\
  log (snd run) =
    log st ++ [LoggerDebug notDotcomMessage; LoggerDebug (undefinedFlagMessage flag)] /\
  exists cached,
    cachedApiResponse (snd run) = Some cached /\ forall f, cached f = None.
Proof.
  intros Hvariant Hcache. cbv zeta.
  run_flags. rewrite Hcache.
  destruct (gitHubVersion_type env) as [|n]; [contradiction|].
  cbn [GitHubVariant_eqb]. run_flags.
  change (emptyResponse flag) with (@None bool). run_flags.
  repeat split; try reflexivity; [by rewrite <- !app_assoc|].
  exists emptyResponse. split; reflexivity.
Qed.

(** The value of a flag in the cache after a call of the API path. *)
Lemma api_true_is_in_cache env flag st st' :
  GitHubFeatureFlags_getValue env flag st = (Fulfilled true, st') ->
  exists data, cachedApiResponse st' = Some data /\ data flag = Some true.
Proof.
  run_flags.
  destruct (cachedApiResponse st) as [cached|] eqn:Hcache; run_flags.
  - destruct (cached flag) as [[]|] eqn:Hflag; run_flags;
      intros [= <-]; eauto.
  - destruct (GitHubVariant_eqb (gitHubVersion_type env) DOTCOM); run_flags.
    + destruct (client_request env (requests st)) as [e|data]; run_flags.
      * destruct (isHTTPError env e && bool_decide (status e = Some 403));
          run_flags; intros Habs; discriminate Habs.
      * destruct (data flag) as [[]|] eqn:Hflag; run_flags;
          intros [= <-]; eauto.
    + change (emptyResponse flag) with (@None bool). run_flags.
      intros Habs. discriminate Habs.
Qed.

(** X24. A flag is on only for a reason: when [getValue] answers [true],
    the variable of the flag is not ["false"], and either it is ["true"] or
    the API response, now in the cache, has the flag set to [true]. *)
Theorem enabled_only_by_variable_or_api env flag codeql st st' :
  getValue env flag codeql st = (Fulfilled true, st') ->
  envVarValue env flag <> "false" /\
  (envVarValue env flag = "true"
   \/ exists data, cachedApiResponse st' = Some data /\ data flag = Some true).
Proof.
  unfold getValue.
  destruct (negb (bool_decide (is_Some codeql))
            && truthy (minimumVersion (featureConfig flag)));
    [intros Habs; discriminate Habs|].
  destruct (Feature_eqb flag BypassToolcacheEnabled && isInTestMode env);
    [intros Habs; discriminate Habs|].
  destruct (String.eqb_spec (envVarValue env flag) "false") as [Hfalse|Hfalse];
    [intros Habs; discriminate Habs|].
  intros Hrun. split; [exact Hfalse|].
  destruct (String.eqb_spec (envVarValue env flag) "true") as [Htrue|Htrue];
    [left; exact Htrue|].
  right. revert Hrun.
  destruct codeql as [cli|], (minimumVersion (featureConfig flag)) as [minimum|];
    try (unfold mbind at 1, mret at 1; cbn [negb]; apply api_true_is_in_cache).
  destruct (truthy (Some minimum));
    [|unfold mbind at 1, mret at 1; cbn [negb]; apply api_true_is_in_cache].
  unfold mbind at 1.
  destruct (codeQlVersionAbove env cli minimum) as [[|]|e]; cbn [negb].
  - apply api_true_is_in_cache.
  - intros Habs. discriminate Habs.
  - intros Habs. discriminate Habs.
Qed.

(** ** The properties on concrete workflows *)

Lemma getValue_needs_codeql_for_versioned_flags_witness :
  getValue (dotcomEnv ∅ false answersOnce) MlPoweredQueriesEnabled None freshState =
    (Rejected (new_Error (internalErrorMessage MlPoweredQueriesEnabled)), freshState).
Proof.
  apply getValue_needs_codeql_for_versioned_flags. left. reflexivity.
Defined.

Lemma getValue_ignores_codeql_for_unversioned_flags_witness :
  getValue (dotcomEnv ∅ false answersOnce) TrapCachingEnabled
    (Some (mkCodeQL "2.6.0")) freshState =
  getValue (dotcomEnv ∅ false answersOnce) TrapCachingEnabled None freshState.
Proof.
  apply getValue_ignores_codeql_for_unversioned_flags; discriminate.
Defined.

Lemma env_false_disables_witness :
  let env :=
    dotcomEnv {[ "CODEQL_TRAP_CACHING" := "False" ]} false answersOnce in
  wellCalled TrapCachingEnabled None /\
  envVarValue env TrapCachingEnabled = "false" /\
  getValue env TrapCachingEnabled None freshState = (Fulfilled false, freshState).
Proof.
  intros env.
  assert (wellCalled TrapCachingEnabled None) as Hcall by (right; reflexivity).
  assert (envVarValue env TrapCachingEnabled = "false") as Hvar
    by (vm_compute; reflexivity).
  split; [exact Hcall|]. split; [exact Hvar|].
  exact (env_false_disables env TrapCachingEnabled None freshState Hcall Hvar).
Defined.

Lemma test_mode_never_bypasses_toolcache_witness :
  let env :=
    dotcomEnv {[ "CODEQL_BYPASS_TOOLCACHE" := "true" ]} true answersOnce in
  isInTestMode env = true /\
  envVarValue env BypassToolcacheEnabled = "true" /\
  getValue env BypassToolcacheEnabled None freshState = (Fulfilled false, freshState).
Proof.
  intros env. split; [reflexivity|]. split; [vm_compute; reflexivity|].
  apply (test_mode_never_bypasses_toolcache env None freshState). reflexivity.
Defined.

Lemma old_cli_disables_even_when_forced_witness :
  let env :=
    dotcomEnv {[ "CODEQL_ML_POWERED_QUERIES" := "true" ]} false answersOnce in
  envVarValue env MlPoweredQueriesEnabled = "true" /\
  getValue env MlPoweredQueriesEnabled (Some (mkCodeQL "2.6.0")) freshState =
    (Fulfilled false, freshState).
Proof.
  intros env. split; [vm_compute; reflexivity|].
  apply (old_cli_disables_even_when_forced env MlPoweredQueriesEnabled
           (mkCodeQL "2.6.0") "2.7.5" freshState); reflexivity.
Defined.

Lemma env_true_enables_witness :
  let env :=
    dotcomEnv {[ "CODEQL_ML_POWERED_QUERIES" := "TRUE" ]} false answersOnce in
  getValue env MlPoweredQueriesEnabled (Some (mkCodeQL "2.11.0")) freshState =
    (Fulfilled true, freshState).
Proof.
  intros env.
  apply (env_true_enables env MlPoweredQueriesEnabled (Some (mkCodeQL "2.11.0"))
           freshState).
  - vm_compute. reflexivity.
  - right. exists (mkCodeQL "2.11.0"), "2.7.5". repeat split; reflexivity.
  - reflexivity.
Defined.

Lemma api_response_is_cached_witness :
  let env := dotcomEnv ∅ false answersOnce in
  let run1 := GitHubFeatureFlags_getValue env TrapCachingEnabled freshState in
  let run2 := GitHubFeatureFlags_getValue env CliConfigFileEnabled (snd run1) in
  fst run1 = Fulfilled true /\
  fst run2 = Fulfilled false /\
  requests (snd run2) = 1%nat.
Proof.
  intros env run1 run2.
  destruct (api_response_is_cached env TrapCachingEnabled CliConfigFileEnabled
              freshState _ eq_refl eq_refl eq_refl)
    as (Hfirst & Hsecond & Hrequests & _).
  repeat split; assumption.
Defined.

Lemma forbidden_api_disables_without_caching_witness :
  let env := dotcomEnv ∅ false (fun _ => inl forbidden) in
  let run := GitHubFeatureFlags_getValue env TrapCachingEnabled freshState in
  fst run = Fulfilled false /\
  cachedApiResponse (snd run) = None /\
  requests (snd run) = 1%nat.
Proof.
  intros env run.
  destruct (forbidden_api_disables_without_caching env TrapCachingEnabled
              freshState forbidden eq_refl eq_refl eq_refl eq_refl eq_refl)
    as (Hoff & Hcache & Hrequests & _).
  repeat split; assumption.
Defined.

Lemma other_api_failure_is_fatal_witness :
  let env := dotcomEnv ∅ false (fun _ => inl serverError) in
  let run := GitHubFeatureFlags_getValue env TrapCachingEnabled freshState in
  fst run = Rejected (new_Error (loadErrorMessage serverError)) /\
  cachedApiResponse (snd run) = None.
Proof.
  intros env run.
  destruct (other_api_failure_is_fatal env TrapCachingEnabled freshState
              serverError eq_refl eq_refl eq_refl)
    as (Hfatal & Hcache & _).
  - right. discriminate.
  - split; assumption.
Defined.

Lemma no_api_request_off_dotcom_witness :
  let env := enterpriseEnv ∅ answersOnce in
  let run := GitHubFeatureFlags_getValue env TrapCachingEnabled freshState in
  fst run = Fulfilled false /\ requests (snd run) = 0%nat.
Proof.
  intros env run.
  destruct (no_api_request_off_dotcom env TrapCachingEnabled freshState)
    as (Hoff & Hrequests & _).
  - discriminate.
  - reflexivity.
  - split; assumption.
Defined.

Lemma enabled_only_by_variable_or_api_witness :
  let env := dotcomEnv ∅ false answersOnce in
  exists st',
    getValue env TrapCachingEnabled None freshState = (Fulfilled true, st') /\
    envVarValue env TrapCachingEnabled <> "false" /\
    exists data, cachedApiResponse st' = Some data /\
                 data TrapCachingEnabled = Some true.
Proof.
  intros env. eexists. split; [vm_compute; reflexivity|].
  edestruct (enabled_only_by_variable_or_api env TrapCachingEnabled None freshState)
    as [Hnot [Htrue|Hapi]].
  - vm_compute. reflexivity.
  - split; [exact Hnot|]. vm_compute in Htrue. discriminate Htrue.
  - split; [exact Hnot | exact Hapi].
Defined.

(** [createFeatureFlags]: a flag is on exactly when it is listed. *)
Lemma createFeatureFlags_lists (enabledFlags : list Feature) (flag : Feature) :
  createFeatureFlags enabledFlags flag = true <-> List.In flag enabledFlags.
Proof.
  unfold createFeatureFlags. rewrite existsb_exists. split.
  - intros (f & Hin & Heq). apply Feature_eqb_eq in Heq as ->. exact Hin.
  - intros Hin. exists flag. split; [exact Hin | by apply Feature_eqb_eq].
Qed.

End FeatureFlagsFacts.
